(** * A shallow embedding of [app.py], the Streamlit chat client

    The script is run from top to bottom on every interaction.  One run is
    modelled as a computation in a small monad that threads the session
    state, collects what the script shows and sends (its trace) and carries
    Python's two ways of leaving a block early: an [Exception], and the
    rerun signal of [st.rerun()], which [except Exception] does not catch.
    What lies outside the repository (the widgets of the framework, the
    constructor and the endpoint of the client library) is part of what a
    run meets. *)

From Stdlib Require Import List String Bool Arith Lia Floats.
Import ListNotations.

Set Warnings "-inexact-float".

Open Scope string_scope.
Open Scope list_scope.

(** ** Data *)

(** A chat message, the dict [{"role": ..., "content": ...}]. *)
Record Message : Type := { role : string; content : string }.

(** The client handle [OpenAI(base_url=..., api_key=...)]. *)
Record OpenAI : Type := { base_url : string; api_key : string }.

(** What [client.chat.completions.create] sends. *)
Record Request : Type := {
  req_client : OpenAI;
  req_model : string;
  req_messages : list Message;
  req_temperature : float
}.

(** What the endpoint answers: [response.choices[i].message.content]. *)
Record ChatCompletionMessage : Type := { msg_content : string }.
Record Choice : Type := { message : ChatCompletionMessage }.
Record ChatCompletion : Type := { choices : list Choice }.

(** An instance of a subclass of Python's [Exception], with its [str(e)]. *)
Record Exception : Type := { exc_class : string; exc_str : string }.

Definition str (e : Exception) : string := exc_str e.

(** [st.session_state], restricted to the two attributes the script uses.
    [None] is an attribute that is not set; [client = Some None] is the
    attribute set to Python's [None]. *)
Record SessionState : Type := {
  messages : option (list Message);
  client : option (option OpenAI)
}.

Definition fresh : SessionState := {| messages := None; client := None |}.

(** What one run of the script meets: the state of the widgets (by label,
    [None] for a widget the user has not touched, which then returns its
    [value=] default), which buttons were clicked, the text submitted to the
    chat input if any, how the endpoint answers a request, and what the
    constructor [OpenAI(base_url=..., api_key=...)] of the client library
    raises for the arguments it does not take (a URL it cannot parse, an
    empty key), if anything.  The library takes the URL and the key the
    script has as defaults. *)
Record Run : Type := {
  text_inputs : string -> option string;
  sliders : string -> option float;
  buttons : string -> bool;
  chat_inputs : option string;
  endpoint : Request -> Exception + ChatCompletion;
  openai_rejects : string -> string -> option Exception;
  default_accepted : openai_rejects "http://localhost:11434/v1" "dummy" = None
}.

(** What a run shows and sends, in order. *)
Inductive event : Type :=
| SetPageConfig (page_title page_icon layout : string)
| Sidebar
| Widget (label : string)
| Title (body : string)
| Caption (body : string)
| Divider
| Success (body : string)
| Error (body : string)
| ChatMessage (name : string)
| Markdown (body : string)
| Empty
| PlaceholderMarkdown (body : string)
| PlaceholderError (body : string)
| Create (req : Request).

(** ** The script monad *)

Inductive outcome (A : Type) : Type :=
| Done (a : A)
| Raised (e : Exception)
| RerunRequested.

Arguments Done {A} a.
Arguments Raised {A} e.
Arguments RerunRequested {A}.

Record Result (A : Type) : Type := {
  res : outcome A;
  state : SessionState;
  trace : list event
}.

Arguments Build_Result {A} res state trace.
Arguments res {A} r.
Arguments state {A} r.
Arguments trace {A} r.

Definition Script (A : Type) : Type := Run -> SessionState -> Result A.

Definition ret {A} (a : A) : Script A :=
  fun _ s => {| res := Done a; state := s; trace := [] |}.

Definition bind {A B} (m : Script A) (k : A -> Script B) : Script B :=
  fun env s =>
    match m env s with
    | {| res := Done a; state := s1; trace := t1 |} =>
        match k a env s1 with
        | {| res := o; state := s2; trace := t2 |} =>
            {| res := o; state := s2; trace := t1 ++ t2 |}
        end
    | {| res := Raised e; state := s1; trace := t1 |} =>
        {| res := Raised e; state := s1; trace := t1 |}
    | {| res := RerunRequested; state := s1; trace := t1 |} =>
        {| res := RerunRequested; state := s1; trace := t1 |}
    end.

Declare Scope script_scope.
Delimit Scope script_scope with script.
Notation "x <- m ;; k" := (bind m (fun x => k))
  (at level 61, m at next level, right associativity) : script_scope.
Notation "m ;; k" := (bind m (fun _ => k))
  (at level 61, right associativity) : script_scope.
Open Scope script_scope.

Definition raise {A} (e : Exception) : Script A :=
  fun _ s => {| res := Raised e; state := s; trace := [] |}.

(** [try: body except Exception as e: handler e].  The rerun signal is not
    an [Exception] and passes through. *)
Definition try_except {A} (body : Script A) (handler : Exception -> Script A)
  : Script A :=
  fun env s =>
    match body env s with
    | {| res := Raised e; state := s1; trace := t1 |} =>
        match handler e env s1 with
        | {| res := o; state := s2; trace := t2 |} =>
            {| res := o; state := s2; trace := t1 ++ t2 |}
        end
    | r => r
    end.

Definition emit (ev : event) : Script unit :=
  fun _ s => {| res := Done tt; state := s; trace := [ev] |}.

Fixpoint for_each {A} (l : list A) (body : A -> Script unit) : Script unit :=
  match l with
  | [] => ret tt
  | x :: l' => body x ;; for_each l' body
  end.

(** ** Session state access *)

Definition AttributeError (what : string) : Exception :=
  {| exc_class := "AttributeError"; exc_str := what |}.

Definition IndexError : Exception :=
  {| exc_class := "IndexError"; exc_str := "list index out of range" |}.

Definition has_messages : Script bool :=
  fun _ s => {| res := Done (match messages s with Some _ => true | None => false end);
                state := s; trace := [] |}.

Definition has_client : Script bool :=
  fun _ s => {| res := Done (match client s with Some _ => true | None => false end);
                state := s; trace := [] |}.

Definition get_messages : Script (list Message) :=
  fun _ s =>
    match messages s with
    | Some ms => {| res := Done ms; state := s; trace := [] |}
    | None =>
        {| res := Raised (AttributeError "st.session_state has no attribute 'messages'");
           state := s; trace := [] |}
    end.

Definition set_messages (ms : list Message) : Script unit :=
  fun _ s => {| res := Done tt;
                state := {| messages := Some ms; client := client s |};
                trace := [] |}.

Definition get_client : Script (option OpenAI) :=
  fun _ s =>
    match client s with
    | Some c => {| res := Done c; state := s; trace := [] |}
    | None =>
        {| res := Raised (AttributeError "st.session_state has no attribute 'client'");
           state := s; trace := [] |}
    end.

Definition set_client (c : option OpenAI) : Script unit :=
  fun _ s => {| res := Done tt;
                state := {| messages := messages s; client := Some c |};
                trace := [] |}.

(** [st.session_state.messages.append(m)]. *)
Definition append_message (m : Message) : Script unit :=
  ms <- get_messages ;; set_messages (ms ++ [m]).

(** ** Widgets and display calls *)

(** An input widget shows itself and returns its current value: what the
    user entered, or its [value=] default.  The [help=] and [type=]
    arguments only affect rendering. *)
Definition text_input (label value : string) : Script string :=
  fun env s =>
    {| res := Done (match text_inputs env label with Some v => v | None => value end);
       state := s; trace := [Widget label] |}.

(** A value confined to a range: itself when it lies in it, else the end
    of the range it lies beyond. *)
Definition confine (min_value max_value v : float) : float :=
  if PrimFloat.leb min_value v
  then (if PrimFloat.leb v max_value then v else max_value)
  else min_value.

(** Modelled from the spec: [st.slider] is the framework's widget and not
    part of the repository.  The specification has the configured value
    subject to the widget's range constraints and nothing else, clamped to
    the range the call gives: the widget returns the position the user
    selected (its [value=] default when untouched), confined to
    [min_value .. max_value].  For a position within the bounds, which is
    all the widget lets a user select, that is the position itself. *)
Definition slider (label : string) (min_value max_value value step : float)
  : Script float :=
  fun env s =>
    {| res := Done (confine min_value max_value
                      (match sliders env label with Some v => v | None => value end));
       state := s; trace := [Widget label] |}.

Definition button (label : string) : Script bool :=
  fun env s => {| res := Done (buttons env label); state := s; trace := [Widget label] |}.

Definition chat_input (placeholder : string) : Script (option string) :=
  fun env s => {| res := Done (chat_inputs env); state := s; trace := [Widget placeholder] |}.

(** [st.rerun()]: stops the run; the framework then runs the script again. *)
Definition rerun : Script unit :=
  fun _ s => {| res := RerunRequested; state := s; trace := [] |}.

(** ** The functions of [app.py] *)

Definition initialize_session_state : Script unit :=
  present <- has_messages ;;
  (if negb present then set_messages [] else ret tt) ;;
  present <- has_client ;;
  (if negb present then set_client None else ret tt).

(** The call [OpenAI(base_url=base_url, api_key=api_key)]: the handle, or
    the exception the constructor raises for these arguments. *)
Definition OpenAI_init (base_url api_key : string) : Script OpenAI :=
  fun env s =>
    {| res := match openai_rejects env base_url api_key with
              | Some e => Raised e
              | None => Done {| base_url := base_url; api_key := api_key |}
              end;
       state := s; trace := [] |}.

Definition create_openai_client (base_url api_key : string) : Script OpenAI :=
  OpenAI_init base_url api_key.

Definition display_chat_messages : Script unit :=
  ms <- get_messages ;;
  for_each ms (fun message =>
    emit (ChatMessage (role message)) ;;
    emit (Markdown (content message))).

(** [client.chat.completions.create(model=, messages=, temperature=)]: one
    request to the endpoint, whose answer is the run's.  On [None] the
    attribute access [client.chat] fails before anything is sent. *)
Definition chat_completions_create (client : option OpenAI) (model : string)
    (messages : list Message) (temperature : float) : Script ChatCompletion :=
  match client with
  | None => raise (AttributeError "'NoneType' object has no attribute 'chat'")
  | Some c =>
      fun env s =>
        let req := {| req_client := c; req_model := model;
                      req_messages := messages; req_temperature := temperature |} in
        {| res := match endpoint env req with
                  | inl e => Raised e
                  | inr response => Done response
                  end;
           state := s; trace := [Create req] |}
  end.

(** [l[0]]. *)
Definition getitem0 {A} (l : list A) : Script A :=
  match l with
  | x :: _ => ret x
  | [] => raise IndexError
  end.

(** [get_llm_response]; its [temperature] default of 0.7 is never used, as
    [main] always passes the slider's value. *)
Definition get_llm_response (client : option OpenAI) (model : string)
    (messages : list Message) (temperature : float) : Script string :=
  response <- chat_completions_create client model messages temperature ;;
  choice <- getitem0 (choices response) ;;
  ret (msg_content (message choice)).

Definition main : Script unit :=
  emit (SetPageConfig "LLM Chatbot" "💬" "centered") ;;
  initialize_session_state ;;
  emit Sidebar ;;
  emit (Title "⚙️ Configuration") ;;
  llm_url <- text_input "LLM API URL" "http://localhost:11434/v1" ;;
  model_name <- text_input "Model Name" "llama2" ;;
  api_key <- text_input "API Key" "dummy" ;;
  temperature <- slider "Temperature" 0.0 2.0 0.7 0.1 ;;
  clicked <- button "Update Settings" ;;
  (if clicked : bool then
     c <- create_openai_client llm_url api_key ;;
     set_client (Some c) ;;
     emit (Success "Settings updated!")
   else ret tt) ;;
  clicked <- button "Clear Chat" ;;
  (if clicked : bool then set_messages [] ;; rerun else ret tt) ;;
  emit Divider ;;
  emit (Caption "💡 Tip: Make sure your local LLM is running before chatting!") ;;
  emit (Title "💬 LLM Chatbot") ;;
  emit (Caption "Chat with your local language model") ;;
  display_chat_messages ;;
  prompt <- chat_input "Type your message here..." ;;
  match prompt with
  | Some (String _ _ as prompt) =>
      c <- get_client ;;
      (match c with
       | None =>
           c <- create_openai_client llm_url api_key ;;
           set_client (Some c)
       | Some _ => ret tt
       end) ;;
      append_message {| role := "user"; content := prompt |} ;;
      emit (ChatMessage "user") ;;
      emit (Markdown prompt) ;;
      emit (ChatMessage "assistant") ;;
      emit Empty ;;
      try_except
        (c <- get_client ;;
         ms <- get_messages ;;
         response <- get_llm_response c model_name ms temperature ;;
         emit (PlaceholderMarkdown response) ;;
         append_message {| role := "assistant"; content := response |})
        (fun e =>
           let error_message := ("❌ Error: " ++ str e)%string in
           emit (PlaceholderError error_message) ;;
           emit (Error
                   "Failed to get response. Please check your LLM URL and ensure the model is running."))
  | _ => ret tt
  end.

(** ** The framework's loop *)

(** The run the framework starts after [st.rerun()]: the widgets keep their
    values, no button is clicked and nothing is submitted. *)
Definition rerun_of (env : Run) : Run :=
  {| text_inputs := text_inputs env;
     sliders := sliders env;
     buttons := fun _ => false;
     chat_inputs := None;
     endpoint := endpoint env;
     openai_rejects := openai_rejects env;
     default_accepted := default_accepted env |}.

(** One interaction: the run it triggers, and the rerun if that run asks
    for one.  A run that ends with an exception is over; the session state
    it leaves is the one the next interaction finds. *)
Definition interaction (env : Run) (s : SessionState) : Result unit :=
  match main env s with
  | {| res := RerunRequested; state := s1; trace := t1 |} =>
      match main (rerun_of env) s1 with
      | {| res := o; state := s2; trace := t2 |} =>
          {| res := o; state := s2; trace := t1 ++ t2 |}
      end
  | r => r
  end.

(** A session: the interactions in order, each on the state the previous
    one left. *)
Fixpoint session (runs : list Run) (s : SessionState) : SessionState :=
  match runs with
  | [] => s
  | env :: runs' => session runs' (state (interaction env s))
  end.

Fixpoint session_trace (runs : list Run) (s : SessionState) : list event :=
  match runs with
  | [] => []
  | env :: runs' =>
      trace (interaction env s) ++ session_trace runs' (state (interaction env s))
  end.

(** ** What a run reads, shows and sends *)

(** The events of a trace that [pick] selects, in order. *)
Fixpoint collect {A} (pick : event -> option A) (t : list event) : list A :=
  match t with
  | [] => []
  | ev :: t' =>
      match pick ev with
      | Some a => a :: collect pick t'
      | None => collect pick t'
      end
  end.

(** The requests sent to the endpoint in a trace. *)
Definition requests : list event -> list Request :=
  collect (fun ev => match ev with Create req => Some req | _ => None end).

(** The replies rendered in the assistant's placeholder. *)
Definition replies_shown : list event -> list string :=
  collect (fun ev => match ev with PlaceholderMarkdown body => Some body | _ => None end).

(** The stored conversation, empty while the attribute is not set. *)
Definition store (s : SessionState) : list Message :=
  match messages s with Some ms => ms | None => [] end.

Definition llm_url_of (env : Run) : string :=
  match text_inputs env "LLM API URL" with
  | Some v => v
  | None => "http://localhost:11434/v1"
  end.

Definition model_name_of (env : Run) : string :=
  match text_inputs env "Model Name" with Some v => v | None => "llama2" end.

Definition api_key_of (env : Run) : string :=
  match text_inputs env "API Key" with Some v => v | None => "dummy" end.

(** The value of the temperature slider in a run. *)
Definition temperature_of (env : Run) : float :=
  confine 0.0 2.0
    (match sliders env "Temperature" with Some v => v | None => 0.7%float end).

(** A value within a range, ends included. *)
Definition within (min_value max_value v : float) : Prop :=
  PrimFloat.leb min_value v = true /\ PrimFloat.leb v max_value = true.

Definition user (prompt : string) : Message := {| role := "user"; content := prompt |}.

Definition assistant (response : string) : Message :=
  {| role := "assistant"; content := response |}.

(** The handle the constructor gives for the URL and key of a run, when
    it takes them. *)
Definition built (env : Run) : OpenAI :=
  {| base_url := llm_url_of env; api_key := api_key_of env |}.

(** What the constructor raises for the URL and key of a run, if anything. *)
Definition rejected (env : Run) : option Exception :=
  openai_rejects env (llm_url_of env) (api_key_of env).

(** The client attribute once the session state is initialised. *)
Definition kept (s : SessionState) : option OpenAI :=
  match client s with Some c => c | None => None end.

(** The exception that ends a run in the sidebar, if any: the constructor's,
    when Update Settings is clicked. *)
Definition update_error (env : Run) : option Exception :=
  if buttons env "Update Settings" then rejected env else None.

(** The client attribute after the sidebar, whether the run goes on or
    ends there. *)
Definition configured (env : Run) (s : SessionState) : option OpenAI :=
  if buttons env "Update Settings"
  then match rejected env with
       | None => Some (built env)
       | Some _ => kept s
       end
  else kept s.

(** The handle a submission in this run uses, once it has one. *)
Definition handle (env : Run) (s : SessionState) : OpenAI :=
  match configured env s with
  | Some c => c
  | None => built env
  end.

(** The exception that ends a submission before its request, if any: the
    constructor's, when the sidebar has left no handle. *)
Definition lazy_error (env : Run) (s : SessionState) : option Exception :=
  match configured env s with
  | Some _ => None
  | None => rejected env
  end.

Definition request_of (env : Run) (s : SessionState) (prompt : string) : Request :=
  {| req_client := handle env s;
     req_model := model_name_of env;
     req_messages := store s ++ [user prompt];
     req_temperature := temperature_of env |}.

(** What the Completion Requester gives for a request in a run. *)
Definition requester (env : Run) (req : Request) : outcome string :=
  res (get_llm_response (Some (req_client req)) (req_model req)
         (req_messages req) (req_temperature req) env fresh).

Definition shown (ms : list Message) : list event :=
  flat_map (fun m => [ChatMessage (role m); Markdown (content m)]) ms.

(** What a run shows up to the Update Settings button. *)
Definition sidebar_head : list event :=
  [SetPageConfig "LLM Chatbot" "💬" "centered"; Sidebar; Title "⚙️ Configuration";
   Widget "LLM API URL"; Widget "Model Name"; Widget "API Key";
   Widget "Temperature"; Widget "Update Settings"].

Definition sidebar_shown (env : Run) : list event :=
  sidebar_head
  ++ (if buttons env "Update Settings" then [Success "Settings updated!"] else [])
  ++ [Widget "Clear Chat"].

Definition page_shown (env : Run) (s : SessionState) : list event :=
  sidebar_shown env
  ++ [Divider;
      Caption "💡 Tip: Make sure your local LLM is running before chatting!";
      Title "💬 LLM Chatbot"; Caption "Chat with your local language model"]
  ++ shown (store s)
  ++ [Widget "Type your message here..."].

Definition failure_notice : string :=
  "Failed to get response. Please check your LLM URL and ensure the model is running.".

(** A submitted text that passes the truth test of [if prompt := ...]. *)
Definition submitted (env : Run) (prompt : string) : Prop :=
  chat_inputs env = Some prompt /\ prompt <> "".

Definition nothing_submitted (env : Run) : Prop :=
  chat_inputs env = None \/ chat_inputs env = Some "".

(** A run that is a submission of [prompt]: the text reaches the chat
    branch, which a click on Clear Chat would cut short. *)
Definition submits (env : Run) (prompt : string) : Prop :=
  buttons env "Clear Chat" = false /\ submitted env prompt.

(** The interaction sends its completion request, and the requester
    returns [r] for it. *)
Definition answered (env : Run) (s : SessionState) (r : string) : Prop :=
  requests (trace (interaction env s)) <> []
  /\ forall req, In req (requests (trace (interaction env s))) ->
                 requester env req = Done r.

(** The interaction sends its completion request, and the requester raises
    [e] for it. *)
Definition failed (env : Run) (s : SessionState) (e : Exception) : Prop :=
  requests (trace (interaction env s)) <> []
  /\ forall req, In req (requests (trace (interaction env s))) ->
                 requester env req = Raised e.

(** A session of submissions that all succeed: run by run, the text
    submitted and the reply the requester returned. *)
Fixpoint all_succeed (runs : list Run) (s : SessionState)
    (exchange : list (string * string)) : Prop :=
  match runs, exchange with
  | [], [] => True
  | env :: runs', (p, r) :: exchange' =>
      submits env p /\ answered env s r
      /\ all_succeed runs' (state (interaction env s)) exchange'
  | _, _ => False
  end.

Definition conversation (exchange : list (string * string)) : list Message :=
  flat_map (fun pr => [user (fst pr); assistant (snd pr)]) exchange.

Definition roles_ok (ms : list Message) : Prop :=
  Forall (fun m => role m = "user" \/ role m = "assistant") ms.

(** A stub run: untouched widgets, no button clicked, and an endpoint with
    one canned answer. *)
Definition stub (answer : Exception + ChatCompletion) (prompt : option string) : Run :=
  {| text_inputs := fun _ => None; sliders := fun _ => None;
     buttons := fun _ => false; chat_inputs := prompt;
     endpoint := fun _ => answer;
     openai_rejects := fun _ _ => None;
     default_accepted := eq_refl |}.

Definition click (label : string) (env : Run) : Run :=
  {| text_inputs := text_inputs env; sliders := sliders env;
     buttons := fun l => if String.eqb l label then true else buttons env l;
     chat_inputs := chat_inputs env; endpoint := endpoint env;
     openai_rejects := openai_rejects env;
     default_accepted := default_accepted env |}.

Definition hi_there : ChatCompletion :=
  {| choices := [ {| message := {| msg_content := "Hi there" |} |} ] |}.

Definition connection_error : Exception :=
  {| exc_class := "APIConnectionError"; exc_str := "Connection error." |}.

Definition four_entries : SessionState :=
  {| messages := Some [user "a"; assistant "b"; user "c"; assistant "d"];
     client := Some None |}.

Definition old_handle : SessionState :=
  {| messages := Some [];
     client := Some (Some {| base_url := "http://old:1/v1"; api_key := "old" |}) |}.

Definition new_settings : Run :=
  {| text_inputs := fun l => if String.eqb l "LLM API URL" then Some "http://new:2/v1"
                             else if String.eqb l "API Key" then Some "new" else None;
     sliders := fun _ => Some 1.5%float;
     buttons := fun l => String.eqb l "Update Settings";
     chat_inputs := None;
     endpoint := fun _ => inr hi_there;
     openai_rejects := fun _ _ => None;
     default_accepted := eq_refl |}.

Definition warm_submission : Run :=
  {| text_inputs := fun _ => None;
     sliders := fun _ => Some 1.5%float;
     buttons := fun _ => false;
     chat_inputs := Some "Hello";
     endpoint := fun _ => inr hi_there;
     openai_rejects := fun _ _ => None;
     default_accepted := eq_refl |}.

(** ** Further readings of a trace, and the shape of a conversation *)

(** The errors rendered in the assistant's placeholder. *)
Definition errors_shown : list event -> list string :=
  collect (fun ev => match ev with PlaceholderError body => Some body | _ => None end).

(** The success notices of the sidebar. *)
Definition successes : list event -> list string :=
  collect (fun ev => match ev with Success body => Some body | _ => None end).

(** Every assistant message comes directly after a user message;
    [after_user] tells whether the message before [ms] is a user message. *)
Fixpoint paired_from (after_user : bool) (ms : list Message) : bool :=
  match ms with
  | [] => true
  | m :: ms' =>
      if String.eqb (role m) "user" then paired_from true ms'
      else if String.eqb (role m) "assistant" then after_user && paired_from false ms'
      else false
  end.

Definition replies_follow_prompts (ms : list Message) : Prop :=
  paired_from false ms = true.

(** Whether the last message of [ms] is a user message ([after_user] when
    [ms] is empty). *)
Fixpoint ends_with_user (after_user : bool) (ms : list Message) : bool :=
  match ms with
  | [] => after_user
  | m :: ms' => ends_with_user (String.eqb (role m) "user") ms'
  end.

(** A sidebar nobody has touched: every widget returns its default. *)
Definition untouched (env : Run) : Prop :=
  text_inputs env "LLM API URL" = None
  /\ text_inputs env "Model Name" = None
  /\ text_inputs env "API Key" = None
  /\ sliders env "Temperature" = None
  /\ buttons env "Update Settings" = false.

(** The client attribute holds no handle: it is not set, or set to [None]. *)
Definition no_handle (s : SessionState) : Prop :=
  client s = None \/ client s = Some None.

Definition other_fields : Run :=
  {| text_inputs := fun l => if String.eqb l "LLM API URL" then Some "http://new:2/v1"
                             else if String.eqb l "API Key" then Some "new"
                             else if String.eqb l "Model Name" then Some "mistral"
                             else None;
     sliders := fun _ => Some 1.5%float;
     buttons := fun _ => false;
     chat_inputs := Some "Hello";
     endpoint := fun _ => inr hi_there;
     openai_rejects := fun _ _ => None;
     default_accepted := eq_refl |}.

(** The ways a run of the script can go: it ends at the constructor in
    the sidebar, at [st.rerun()], without a submission, at the constructor
    of a submission that has no handle, or after the requester has
    returned or raised. *)
Inductive run_case (env : Run) (s : SessionState) : Prop :=
| case_update_aborts (e : Exception) :
    update_error env = Some e -> run_case env s
| case_clear :
    update_error env = None -> buttons env "Clear Chat" = true -> run_case env s
| case_idle :
    update_error env = None -> buttons env "Clear Chat" = false ->
    nothing_submitted env -> run_case env s
| case_lazy_aborts (p : string) (e : Exception) :
    update_error env = None -> submits env p -> lazy_error env s = Some e ->
    run_case env s
| case_done (p r : string) :
    update_error env = None -> submits env p -> lazy_error env s = None ->
    requester env (request_of env s p) = Done r -> run_case env s
| case_raised (p : string) (e : Exception) :
    update_error env = None -> submits env p -> lazy_error env s = None ->
    requester env (request_of env s p) = Raised e -> run_case env s.

(** The conversation part of a trace: the chat containers opened and the
    texts rendered in them, in order. *)
Definition chat_events : list event -> list event :=
  collect (fun ev => match ev with
                     | ChatMessage _ | Markdown _ => Some ev
                     | _ => None
                     end).

(** A run in which the user has mistyped the port of the URL and clicks
    Update Settings; the constructor raises on that URL. *)
Definition invalid_url : Exception :=
  {| exc_class := "InvalidURL"; exc_str := "Invalid port: 'abc'" |}.

Definition mistyped_url : Run :=
  {| text_inputs := fun l => if String.eqb l "LLM API URL"
                             then Some "http://localhost:abc/v1" else None;
     sliders := fun _ => None;
     buttons := fun l => String.eqb l "Update Settings";
     chat_inputs := None;
     endpoint := fun _ => inr hi_there;
     openai_rejects := fun url _ => if String.eqb url "http://localhost:abc/v1"
                                    then Some invalid_url else None;
     default_accepted := eq_refl |}.

(** A first submission with the key field emptied; the constructor raises
    on the empty key. *)
Definition missing_key : Exception :=
  {| exc_class := "OpenAIError"; exc_str := "The api_key client option must be set" |}.

Definition emptied_key : Run :=
  {| text_inputs := fun l => if String.eqb l "API Key" then Some "" else None;
     sliders := fun _ => None;
     buttons := fun _ => false;
     chat_inputs := Some "Hello";
     endpoint := fun _ => inr hi_there;
     openai_rejects := fun _ key => if String.eqb key "" then Some missing_key else None;
     default_accepted := eq_refl |}.

(** * Properties *)

Arguments display_chat_messages : simpl never.
Arguments get_llm_response : simpl never.
Arguments requester : simpl never.
Arguments confine : simpl never.

Lemma for_each_emits (ms : list Message) (env : Run) (s : SessionState) :
  for_each ms (fun message =>
      emit (ChatMessage (role message)) ;; emit (Markdown (content message))) env s
  = {| res := Done tt; state := s; trace := shown ms |}.
Proof.
  induction ms as [|m ms IH]; [reflexivity|].
  cbn [for_each]. unfold bind at 1. cbn. rewrite IH. reflexivity.
Qed.

Lemma display_chat_messages_shows (env : Run) (ms : list Message)
    (c : option (option OpenAI)) :
  display_chat_messages env {| messages := Some ms; client := c |}
  = {| res := Done tt; state := {| messages := Some ms; client := c |};
       trace := shown ms |}.
Proof.
  unfold display_chat_messages, bind, get_messages; cbn.
  rewrite for_each_emits. reflexivity.
Qed.

Lemma get_llm_response_run (c : OpenAI) (model : string) (ms : list Message)
    (t : float) (env : Run) (s : SessionState) :
  let req := {| req_client := c; req_model := model; req_messages := ms;
                req_temperature := t |} in
  get_llm_response (Some c) model ms t env s
  = {| res := requester env req; state := s; trace := [Create req] |}.
Proof.
  unfold requester, get_llm_response, bind, chat_completions_create; cbn.
  destruct (endpoint env _) as [e|response]; [reflexivity|].
  destruct (choices response); reflexivity.
Qed.

Lemma requester_never_reruns (env : Run) (req : Request) :
  requester env req <> RerunRequested.
Proof.
  unfold requester, get_llm_response, bind, chat_completions_create; cbn.
  destruct (endpoint env _) as [e|response]; [discriminate|].
  destruct (choices response); discriminate.
Qed.

Ltac script_step :=
  first
    [ progress (unfold bind, try_except; cbn)
    | rewrite display_chat_messages_shows
    | rewrite get_llm_response_run
    | match goal with
      | H : ?x = _ |- context [match ?x with _ => _ end] => rewrite H
      | H : ?x = _ |- context [if ?x then _ else _] => rewrite H
      end ].

Ltac script_run := repeat script_step.

(** Unfolds what a run reads, and splits on the state and on the Update
    Settings button. *)
Ltac script_cases s :=
  unfold main, initialize_session_state, create_openai_client, OpenAI_init,
    page_shown, sidebar_shown, sidebar_head;
  unfold update_error, lazy_error, request_of, handle, configured, kept, built,
    rejected, store in *;
  unfold llm_url_of, model_name_of, api_key_of, temperature_of, user, assistant in *;
  destruct s as [[?ms|] [[?c|]|]];
  destruct (buttons _ "Update Settings") eqn:?Hupd;
  cbn [messages client] in *.

(** ** The ways a run can go *)

Lemma main_update_aborts (env : Run) (s : SessionState) (e : Exception) :
  update_error env = Some e ->
  main env s = {| res := Raised e;
                  state := {| messages := Some (store s); client := Some (kept s) |};
                  trace := sidebar_head |}.
Proof.
  intros Herr. script_cases s; try discriminate; script_run; reflexivity.
Qed.

Lemma main_clear (env : Run) (s : SessionState) :
  update_error env = None -> buttons env "Clear Chat" = true ->
  main env s = {| res := RerunRequested;
                  state := {| messages := Some []; client := Some (configured env s) |};
                  trace := sidebar_shown env |}.
Proof.
  intros Herr Hclear. script_cases s; script_run; reflexivity.
Qed.

Lemma main_idle (env : Run) (s : SessionState) :
  update_error env = None -> buttons env "Clear Chat" = false ->
  nothing_submitted env ->
  main env s = {| res := Done tt;
                  state := {| messages := Some (store s); client := Some (configured env s) |};
                  trace := page_shown env s |}.
Proof.
  intros Herr Hclear [Hnone|Hnone]; script_cases s; script_run; reflexivity.
Qed.

Lemma main_lazy_aborts (env : Run) (s : SessionState) (p : string) (e : Exception) :
  update_error env = None -> buttons env "Clear Chat" = false -> submitted env p ->
  lazy_error env s = Some e ->
  main env s = {| res := Raised e;
                  state := {| messages := Some (store s); client := Some (configured env s) |};
                  trace := page_shown env s |}.
Proof.
  intros Herr Hclear [Hp Hne] Hlazy. destruct p as [|a p]; [congruence|].
  script_cases s; try rewrite Herr in Hlazy; try discriminate; script_run; reflexivity.
Qed.

Lemma main_submit_done (env : Run) (s : SessionState) (p r : string) :
  update_error env = None -> buttons env "Clear Chat" = false -> submitted env p ->
  lazy_error env s = None ->
  requester env (request_of env s p) = Done r ->
  main env s
  = {| res := Done tt;
       state := {| messages := Some (store s ++ [user p; assistant r]);
                   client := Some (Some (handle env s)) |};
       trace := page_shown env s
                ++ [ChatMessage "user"; Markdown p; ChatMessage "assistant"; Empty;
                    Create (request_of env s p); PlaceholderMarkdown r] |}.
Proof.
  intros Herr Hclear [Hp Hne] Hlazy Hr. destruct p as [|a p]; [congruence|].
  script_cases s; try rewrite Herr in *; cbn in Hr; script_run;
    rewrite <- ?app_assoc; reflexivity.
Qed.

Lemma main_submit_raised (env : Run) (s : SessionState) (p : string) (e : Exception) :
  update_error env = None -> buttons env "Clear Chat" = false -> submitted env p ->
  lazy_error env s = None ->
  requester env (request_of env s p) = Raised e ->
  main env s
  = {| res := Done tt;
       state := {| messages := Some (store s ++ [user p]);
                   client := Some (Some (handle env s)) |};
       trace := page_shown env s
                ++ [ChatMessage "user"; Markdown p; ChatMessage "assistant"; Empty;
                    Create (request_of env s p);
                    PlaceholderError ("❌ Error: " ++ str e)%string;
                    Error failure_notice] |}.
Proof.
  intros Herr Hclear [Hp Hne] Hlazy Hr. destruct p as [|a p]; [congruence|].
  script_cases s; try rewrite Herr in *; cbn in Hr; script_run;
    rewrite <- ?app_assoc; reflexivity.
Qed.

Lemma interaction_not_rerun (env : Run) (s : SessionState) :
  res (main env s) <> RerunRequested -> interaction env s = main env s.
Proof.
  unfold interaction. destruct (main env s) as [[a|e|] s1 t1]; cbn [res]; congruence.
Qed.

Lemma interaction_update_aborts (env : Run) (s : SessionState) (e : Exception) :
  update_error env = Some e ->
  interaction env s
  = {| res := Raised e;
       state := {| messages := Some (store s); client := Some (kept s) |};
       trace := sidebar_head |}.
Proof.
  intros Herr. rewrite interaction_not_rerun; rewrite (main_update_aborts env s e Herr);
    [reflexivity|discriminate].
Qed.

Lemma interaction_clear (env : Run) (s : SessionState) :
  update_error env = None -> buttons env "Clear Chat" = true ->
  let s1 := {| messages := Some []; client := Some (configured env s) |} in
  interaction env s
  = {| res := Done tt; state := s1;
       trace := sidebar_shown env ++ page_shown (rerun_of env) s1 |}.
Proof.
  intros Herr Hclear s1. unfold interaction. rewrite (main_clear env s Herr Hclear).
  fold s1. rewrite (main_idle (rerun_of env) s1); [reflexivity..|now left].
Qed.

Lemma interaction_idle (env : Run) (s : SessionState) :
  update_error env = None -> buttons env "Clear Chat" = false ->
  nothing_submitted env ->
  interaction env s
  = {| res := Done tt;
       state := {| messages := Some (store s); client := Some (configured env s) |};
       trace := page_shown env s |}.
Proof.
  intros Herr Hclear Hnone.
  rewrite interaction_not_rerun; rewrite (main_idle env s Herr Hclear Hnone);
    [reflexivity|discriminate].
Qed.

Lemma interaction_lazy_aborts (env : Run) (s : SessionState) (p : string)
    (e : Exception) :
  update_error env = None -> submits env p -> lazy_error env s = Some e ->
  interaction env s
  = {| res := Raised e;
       state := {| messages := Some (store s); client := Some (configured env s) |};
       trace := page_shown env s |}.
Proof.
  intros Herr [Hclear Hp] Hlazy.
  rewrite interaction_not_rerun; rewrite (main_lazy_aborts env s p e Herr Hclear Hp Hlazy);
    [reflexivity|discriminate].
Qed.

Lemma interaction_submit_done (env : Run) (s : SessionState) (p r : string) :
  update_error env = None -> submits env p -> lazy_error env s = None ->
  requester env (request_of env s p) = Done r ->
  interaction env s
  = {| res := Done tt;
       state := {| messages := Some (store s ++ [user p; assistant r]);
                   client := Some (Some (handle env s)) |};
       trace := page_shown env s
                ++ [ChatMessage "user"; Markdown p; ChatMessage "assistant"; Empty;
                    Create (request_of env s p); PlaceholderMarkdown r] |}.
Proof.
  intros Herr [Hclear Hp] Hlazy Hr.
  rewrite interaction_not_rerun;
    rewrite (main_submit_done env s p r Herr Hclear Hp Hlazy Hr);
    [reflexivity|discriminate].
Qed.

Lemma interaction_submit_raised (env : Run) (s : SessionState) (p : string)
    (e : Exception) :
  update_error env = None -> submits env p -> lazy_error env s = None ->
  requester env (request_of env s p) = Raised e ->
  interaction env s
  = {| res := Done tt;
       state := {| messages := Some (store s ++ [user p]);
                   client := Some (Some (handle env s)) |};
       trace := page_shown env s
                ++ [ChatMessage "user"; Markdown p; ChatMessage "assistant"; Empty;
                    Create (request_of env s p);
                    PlaceholderError ("❌ Error: " ++ str e)%string;
                    Error failure_notice] |}.
Proof.
  intros Herr [Hclear Hp] Hlazy Hr.
  rewrite interaction_not_rerun;
    rewrite (main_submit_raised env s p e Herr Hclear Hp Hlazy Hr);
    [reflexivity|discriminate].
Qed.

Lemma requester_cases (env : Run) (req : Request) :
  (exists r, requester env req = Done r) \/ (exists e, requester env req = Raised e).
Proof.
  destruct (requester env req) as [r|e|] eqn:Hreq; eauto.
  exfalso. exact (requester_never_reruns env req Hreq).
Qed.

Lemma chat_input_cases (env : Run) :
  nothing_submitted env \/ exists p, submitted env p.
Proof.
  unfold nothing_submitted, submitted.
  destruct (chat_inputs env) as [[|a p]|]; eauto.
  right. exists (String a p). split; [reflexivity|discriminate].
Qed.

Lemma run_cases (env : Run) (s : SessionState) : run_case env s.
Proof.
  destruct (update_error env) as [e|] eqn:Herr; [now apply case_update_aborts with e|].
  destruct (buttons env "Clear Chat") eqn:Hclear; [now apply case_clear|].
  destruct (chat_input_cases env) as [Hnone|[p Hp]]; [now apply case_idle|].
  destruct (lazy_error env s) as [e|] eqn:Hlazy; [now apply case_lazy_aborts with p e|].
  destruct (requester_cases env (request_of env s p)) as [[r Hr]|[e He]].
  - now apply case_done with p r.
  - now apply case_raised with p e.
Qed.

Lemma submits_unique (env : Run) (p p' : string) :
  submits env p -> submits env p' -> p = p'.
Proof. intros [_ [Hp _]] [_ [Hp' _]]. congruence. Qed.

Lemma submits_not_idle (env : Run) (p : string) :
  submits env p -> nothing_submitted env -> False.
Proof. intros [_ [Hp Hne]] [Hnone|Hnone]; congruence. Qed.

(** Two texts submitted in one run are the same text. *)
Ltac same_prompt :=
  match goal with
  | Hp : submits ?env ?p, Hq : submits ?env ?q |- _ =>
      tryif constr_eq p q then fail
      else (pose proof (submits_unique env p q Hp Hq); subst)
  end.

(** Splits on the way the run goes and replaces the run and the
    interaction by what they are in each. *)
Ltac run_by_cases env s :=
  let e := fresh "e" in
  let p := fresh "p" in
  let r := fresh "r" in
  let Herr := fresh "Herr" in
  let Hclear := fresh "Hclear" in
  let Hnone := fresh "Hnone" in
  let Hsub := fresh "Hsub" in
  let Hlazy := fresh "Hlazy" in
  let Hr := fresh "Hr" in
  destruct (run_cases env s)
    as [e Herr|Herr Hclear|Herr Hclear Hnone|p e Herr Hsub Hlazy
        |p r Herr Hsub Hlazy Hr|p e Herr Hsub Hlazy Hr];
  [ rewrite ?(interaction_update_aborts env s e Herr),
      ?(main_update_aborts env s e Herr) in *
  | rewrite ?(interaction_clear env s Herr Hclear),
      ?(main_clear env s Herr Hclear) in *
  | rewrite ?(interaction_idle env s Herr Hclear Hnone),
      ?(main_idle env s Herr Hclear Hnone) in *
  | rewrite ?(interaction_lazy_aborts env s p e Herr Hsub Hlazy),
      ?(main_lazy_aborts env s p e Herr (proj1 Hsub) (proj2 Hsub) Hlazy) in *
  | rewrite ?(interaction_submit_done env s p r Herr Hsub Hlazy Hr),
      ?(main_submit_done env s p r Herr (proj1 Hsub) (proj2 Hsub) Hlazy Hr) in *
  | rewrite ?(interaction_submit_raised env s p e Herr Hsub Hlazy Hr),
      ?(main_submit_raised env s p e Herr (proj1 Hsub) (proj2 Hsub) Hlazy Hr) in * ];
  cbn [res state trace] in *.

(** ** Reading traces *)

Lemma collect_app {A} (pick : event -> option A) (t1 t2 : list event) :
  collect pick (t1 ++ t2) = collect pick t1 ++ collect pick t2.
Proof.
  induction t1 as [|ev t1 IH]; [reflexivity|].
  cbn [collect app]. destruct (pick ev); [cbn; f_equal|]; exact IH.
Qed.

Lemma collect_shown {A} (pick : event -> option A) (ms : list Message) :
  (forall name, pick (ChatMessage name) = None) ->
  (forall body, pick (Markdown body) = None) ->
  collect pick (shown ms) = [].
Proof.
  intros Hname Hbody. induction ms as [|m ms IH]; [reflexivity|].
  unfold shown in *. cbn [flat_map app collect].
  rewrite Hname, Hbody. exact IH.
Qed.

Lemma requests_sidebar_head : requests sidebar_head = [].
Proof. reflexivity. Qed.

Lemma requests_sidebar_shown (env : Run) : requests (sidebar_shown env) = [].
Proof.
  unfold requests, sidebar_shown, sidebar_head.
  destruct (buttons env "Update Settings"); reflexivity.
Qed.

Lemma requests_page_shown (env : Run) (s : SessionState) :
  requests (page_shown env s) = [].
Proof.
  unfold requests, page_shown. rewrite !collect_app.
  rewrite collect_shown by reflexivity. fold requests.
  rewrite requests_sidebar_shown. reflexivity.
Qed.

Lemma replies_page_shown (env : Run) (s : SessionState) :
  replies_shown (page_shown env s) = [].
Proof.
  unfold replies_shown, page_shown, sidebar_shown, sidebar_head. rewrite !collect_app.
  rewrite collect_shown by reflexivity.
  destruct (buttons env "Update Settings"); reflexivity.
Qed.

Lemma errors_page_shown (env : Run) (s : SessionState) :
  errors_shown (page_shown env s) = [].
Proof.
  unfold errors_shown, page_shown, sidebar_shown, sidebar_head. rewrite !collect_app.
  rewrite collect_shown by reflexivity.
  destruct (buttons env "Update Settings"); reflexivity.
Qed.

Lemma requests_submission (env : Run) (s : SessionState) (after : list event) :
  requests (page_shown env s ++ after) = requests after.
Proof.
  unfold requests. rewrite collect_app. fold requests.
  now rewrite requests_page_shown.
Qed.

Lemma requests_cleared (env env' : Run) (s : SessionState) :
  requests (sidebar_shown env ++ page_shown env' s) = [].
Proof.
  unfold requests. rewrite collect_app. fold requests.
  now rewrite requests_sidebar_shown, requests_page_shown.
Qed.

(** The requests of an interaction: none, or the one of a submission that
    has its handle. *)
Lemma interaction_requests (env : Run) (s : SessionState) (req : Request) :
  In req (requests (trace (interaction env s))) ->
  exists p, submits env p /\ req = request_of env s p.
Proof.
  intros Hin. run_by_cases env s;
    rewrite ?requests_sidebar_head, ?requests_cleared, ?requests_page_shown,
      ?requests_submission in Hin;
    try (destruct Hin; fail).
  - exists p. destruct Hin as [<-|[]]. now split.
  - exists p. destruct Hin as [<-|[]]. now split.
Qed.

Lemma interaction_request_count (env : Run) (s : SessionState) :
  List.length (requests (trace (interaction env s))) <= 1.
Proof.
  run_by_cases env s;
    rewrite ?requests_sidebar_head, ?requests_cleared, ?requests_page_shown,
      ?requests_submission;
    cbn; lia.
Qed.

Lemma store_set (ms : list Message) (c : option (option OpenAI)) :
  store {| messages := Some ms; client := c |} = ms.
Proof. reflexivity. Qed.

(** ** Submissions *)

Lemma submission_done (env : Run) (s : SessionState) (p r : string) :
  submits env p -> answered env s r ->
  interaction env s
  = {| res := Done tt;
       state := {| messages := Some (store s ++ [user p; assistant r]);
                   client := Some (Some (handle env s)) |};
       trace := page_shown env s
                ++ [ChatMessage "user"; Markdown p; ChatMessage "assistant"; Empty;
                    Create (request_of env s p); PlaceholderMarkdown r] |}.
Proof.
  intros Hp [Hsent Hans]. run_by_cases env s;
    rewrite ?requests_sidebar_head, ?requests_cleared, ?requests_page_shown,
      ?requests_submission in Hsent, Hans;
    try congruence.
  - same_prompt. specialize (Hans _ (or_introl eq_refl)). congruence.
  - specialize (Hans _ (or_introl eq_refl)). congruence.
Qed.

Lemma submission_raised (env : Run) (s : SessionState) (p : string) (e : Exception) :
  submits env p -> failed env s e ->
  interaction env s
  = {| res := Done tt;
       state := {| messages := Some (store s ++ [user p]);
                   client := Some (Some (handle env s)) |};
       trace := page_shown env s
                ++ [ChatMessage "user"; Markdown p; ChatMessage "assistant"; Empty;
                    Create (request_of env s p);
                    PlaceholderError ("❌ Error: " ++ str e)%string;
                    Error failure_notice] |}.
Proof.
  intros Hp [Hsent Hfail]. run_by_cases env s;
    rewrite ?requests_sidebar_head, ?requests_cleared, ?requests_page_shown,
      ?requests_submission in Hsent, Hfail;
    try congruence.
  - specialize (Hfail _ (or_introl eq_refl)). congruence.
  - same_prompt. specialize (Hfail _ (or_introl eq_refl)). congruence.
Qed.

Lemma conversation_length (exchange : list (string * string)) :
  List.length (conversation exchange) = 2 * List.length exchange.
Proof.
  induction exchange as [|pr exchange IH]; [reflexivity|].
  unfold conversation in *. cbn [flat_map app List.length]. rewrite IH. lia.
Qed.

Lemma all_succeed_length (runs : list Run) :
  forall s exchange, all_succeed runs s exchange -> List.length exchange = List.length runs.
Proof.
  induction runs as [|env runs IH]; intros s [|[p r] exchange] H;
    cbn in H; try contradiction; [reflexivity|].
  destruct H as (_ & _ & H). cbn [List.length]. f_equal. exact (IH _ _ H).
Qed.

(** Settles the hypotheses of a concrete run: a request was sent, and the
    requester gave this for it. *)
Ltac concrete_request :=
  split;
  [ vm_compute; discriminate
  | let req := fresh "req" in
    let Hin := fresh "Hin" in
    intros req Hin; vm_compute in Hin; destruct Hin as [<-|[]]; reflexivity ].

(** C1: after N submissions each of which sends its completion request
    and gets a reply, the store holds its prior contents followed by the N
    exchanges, each a user message and then the assistant message the
    requester returned, in submission order; that adds exactly 2N
    messages, so a store that starts empty ends with exactly 2N. *)
Theorem successful_submissions_alternate (runs : list Run) :
  forall (s : SessionState) (exchange : list (string * string)),
    all_succeed runs s exchange ->
    store (session runs s) = store s ++ conversation exchange
    /\ List.length (store (session runs s)) = List.length (store s) + 2 * List.length runs
    /\ (store s = [] -> List.length (store (session runs s)) = 2 * List.length runs).
Proof.
  assert (Hmain : forall runs s exchange,
             all_succeed runs s exchange ->
             store (session runs s) = store s ++ conversation exchange
             /\ List.length (store (session runs s))
                = List.length (store s) + 2 * List.length runs);
    [clear runs|intros s exchange Hall; destruct (Hmain runs s exchange Hall) as [H1 H2];
                split; [exact H1|split; [exact H2|intros Hs; rewrite H2, Hs; reflexivity]]].
  induction runs as [|env runs IH]; intros s exchange Hall.
  - destruct exchange; [|contradiction]. cbn. rewrite app_nil_r. split; [reflexivity|lia].
  - destruct exchange as [|[p r] exchange]; [contradiction|].
    destruct Hall as (Hsub & Hans & Hrest).
    specialize (IH _ _ Hrest). cbn [session].
    rewrite (submission_done env s p r Hsub Hans) in IH |- *. cbn [state] in *.
    destruct IH as [IHstore IHlen]. rewrite store_set in IHstore, IHlen. split.
    + rewrite IHstore, <- app_assoc. reflexivity.
    + rewrite IHlen, length_app. cbn [List.length]. lia.
Qed.

Lemma successful_submissions_alternate_witness :
  store (session [stub (inr hi_there) (Some "Hello"); stub (inr hi_there) (Some "Again")] fresh)
  = [user "Hello"; assistant "Hi there"; user "Again"; assistant "Hi there"]
  /\ List.length (store (session [stub (inr hi_there) (Some "Hello");
                                  stub (inr hi_there) (Some "Again")] fresh)) = 4.
Proof.
  destruct (successful_submissions_alternate
              [stub (inr hi_there) (Some "Hello"); stub (inr hi_there) (Some "Again")]
              fresh [("Hello", "Hi there"); ("Again", "Hi there")])
    as (Hstore & _ & Hlength).
  - cbn [all_succeed].
    split; [repeat split; discriminate|]. split; [concrete_request|].
    split; [repeat split; discriminate|]. split; [concrete_request|exact I].
  - split; [exact Hstore|exact (Hlength eq_refl)].
Defined.

(** C2: a submission whose completion request is sent and raises leaves
    the store at its prior contents plus the one user message, so of odd
    length when it was of even length; no reply is rendered, and the
    assistant's placeholder shows the error instead. *)
Theorem failed_submission_keeps_user_turn (env : Run) (s : SessionState)
    (p : string) (e : Exception) :
  submits env p -> failed env s e ->
  let r := interaction env s in
  res r = Done tt
  /\ store (state r) = store s ++ [user p]
  /\ (Nat.Even (List.length (store s)) -> Nat.Odd (List.length (store (state r))))
  /\ replies_shown (trace r) = []
  /\ exists before req,
       trace r = before ++ [ChatMessage "assistant"; Empty; Create req;
                            PlaceholderError ("❌ Error: " ++ str e)%string;
                            Error failure_notice].
Proof.
  intros Hsub Hfail r. subst r. rewrite (submission_raised env s p e Hsub Hfail).
  cbn [res state trace]. rewrite store_set.
  repeat split.
  - intros [k Hk]. exists k. rewrite length_app. cbn [List.length]. lia.
  - unfold replies_shown. rewrite collect_app. fold replies_shown.
    now rewrite replies_page_shown.
  - exists (page_shown env s ++ [ChatMessage "user"; Markdown p]), (request_of env s p).
    now rewrite <- app_assoc.
Qed.

Lemma failed_submission_keeps_user_turn_witness :
  let r := interaction (stub (inl connection_error) (Some "Hello")) fresh in
  res r = Done tt
  /\ store (state r) = store fresh ++ [user "Hello"]
  /\ (Nat.Even (List.length (store fresh)) -> Nat.Odd (List.length (store (state r))))
  /\ replies_shown (trace r) = []
  /\ exists before req,
       trace r = before ++ [ChatMessage "assistant"; Empty; Create req;
                            PlaceholderError ("❌ Error: " ++ str connection_error)%string;
                            Error failure_notice].
Proof.
  apply (failed_submission_keeps_user_turn
           (stub (inl connection_error) (Some "Hello")) fresh "Hello" connection_error).
  - repeat split; discriminate.
  - concrete_request.
Defined.

(** What a submission leaves in a store that was empty. *)
Lemma submission_from_empty (env : Run) (s : SessionState) (p : string) :
  submits env p -> store s = [] ->
  (forall req, In req (requests (trace (interaction env s))) ->
     req_messages req = [user p]
     /\ (forall r, requester env req = Done r ->
                   store (state (interaction env s)) = [user p; assistant r])
     /\ (forall e, requester env req = Raised e ->
                   store (state (interaction env s)) = [user p]))
  /\ (requests (trace (interaction env s)) = [] -> store (state (interaction env s)) = []).
Proof.
  intros Hp Hempty. run_by_cases env s;
    rewrite ?requests_sidebar_head, ?requests_cleared, ?requests_page_shown,
      ?requests_submission, ?store_set, ?Hempty;
    try (split; [intros req []|reflexivity]);
    try (exfalso; exact (submits_not_idle env p Hp Hnone)).
  - same_prompt. cbn [app]. split; [|discriminate]. intros req [<-|[]].
    cbn [request_of req_messages]. rewrite Hempty. split; [reflexivity|].
    split; intros; congruence.
  - same_prompt. cbn [app]. split; [|discriminate]. intros req [<-|[]].
    cbn [request_of req_messages]. rewrite Hempty. split; [reflexivity|].
    split; intros; [congruence|reflexivity].
Qed.

(** C3: a click on Clear Chat, in any state, leaves the store empty
    whatever it held: both when the run stops at [st.rerun()] and after
    the rerun; no request is sent.  (A click starts a run of its own, in
    which Update Settings is not clicked; the statement also covers a run
    with both clicked, so long as the handle of Update Settings is built
    and the run gets to Clear Chat.)  The next submission starts from
    nothing: a request it sends carries the one new user message, and the
    store ends as that message with its reply, as that message alone when
    the request fails, and empty when no request is sent. *)
Theorem clear_chat_empties_store (env : Run) (s : SessionState) :
  buttons env "Clear Chat" = true -> update_error env = None ->
  res (main env s) = RerunRequested
  /\ messages (state (main env s)) = Some []
  /\ res (interaction env s) = Done tt
  /\ messages (state (interaction env s)) = Some []
  /\ requests (trace (interaction env s)) = []
  /\ forall (env' : Run) (p : string),
       submits env' p ->
       let s1 := state (interaction env s) in
       (forall req, In req (requests (trace (interaction env' s1))) ->
          req_messages req = [user p]
          /\ (forall r, requester env' req = Done r ->
                        store (state (interaction env' s1)) = [user p; assistant r])
          /\ (forall e, requester env' req = Raised e ->
                        store (state (interaction env' s1)) = [user p]))
       /\ (requests (trace (interaction env' s1)) = [] ->
           store (state (interaction env' s1)) = []).
Proof.
  intros Hclear Herr.
  rewrite (main_clear env s Herr Hclear), (interaction_clear env s Herr Hclear).
  cbn [res state trace messages].
  do 4 (split; [reflexivity|]). split; [apply requests_cleared|].
  intros env' p Hsub. now apply submission_from_empty.
Qed.

Lemma clear_chat_empties_store_witness :
  messages (state (interaction (click "Clear Chat" (stub (inr hi_there) None)) four_entries))
  = Some []
  /\ store (state (interaction (stub (inr hi_there) (Some "Hello"))
                     (state (interaction (click "Clear Chat" (stub (inr hi_there) None))
                               four_entries))))
     = [user "Hello"; assistant "Hi there"].
Proof.
  destruct (clear_chat_empties_store (click "Clear Chat" (stub (inr hi_there) None))
              four_entries eq_refl eq_refl) as (_ & _ & _ & Hempty & _ & Hnext).
  split; [exact Hempty|].
  destruct (Hnext (stub (inr hi_there) (Some "Hello")) "Hello") as (Hsent & _).
  - repeat split; discriminate.
  - destruct (Hsent (request_of (stub (inr hi_there) (Some "Hello"))
                       (state (interaction (click "Clear Chat" (stub (inr hi_there) None))
                                 four_entries)) "Hello")) as (_ & Hdone & _).
    + left. reflexivity.
    + apply Hdone. reflexivity.
Defined.

(** C4: an exception the requester raises during a submission is caught
    where the submission is handled: the run completes instead of ending
    with the exception, the placeholder shows the error text built from
    [str(e)] and the notice follows.  The next submission sends the whole
    history, the unanswered user message included, followed by the new
    one; and it does send its request, unless a click on Update Settings
    in that same run ends it at the constructor. *)
Theorem requester_exceptions_are_caught (env : Run) (s : SessionState)
    (p : string) (e : Exception) :
  submits env p -> failed env s e ->
  res (main env s) = Done tt
  /\ res (interaction env s) = Done tt
  /\ In (PlaceholderError ("❌ Error: " ++ str e)%string) (trace (interaction env s))
  /\ In (Error failure_notice) (trace (interaction env s))
  /\ forall (env' : Run) (p' : string),
       submits env' p' ->
       (forall req,
           In req (requests (trace (interaction env' (state (interaction env s))))) ->
           req_messages req = store s ++ [user p; user p'])
       /\ (update_error env' = None ->
           exists req,
             requests (trace (interaction env' (state (interaction env s)))) = [req]).
Proof.
  intros Hsub Hfail.
  assert (Hmain : res (main env s) = res (interaction env s)).
  { rewrite interaction_not_rerun; [reflexivity|].
    destruct Hsub as [Hclear _]. intros Hrerun.
    run_by_cases env s; congruence. }
  rewrite Hmain, (submission_raised env s p e Hsub Hfail).
  cbn [res state trace]. do 2 (split; [reflexivity|]).
  split; [apply in_or_app; right; cbn; tauto|].
  split; [apply in_or_app; right; cbn; tauto|].
  intros env' p' Hsub'. split.
  - intros req Hin. destruct (interaction_requests _ _ _ Hin) as (q & Hq & ->).
    rewrite (submits_unique env' p' q Hsub' Hq).
    cbn [request_of req_messages]. rewrite store_set, <- app_assoc. reflexivity.
  - intros Herr'.
    set (s1 := {| messages := Some (store s ++ [user p]);
                  client := Some (Some (handle env s)) |}).
    assert (Hlazy : lazy_error env' s1 = None).
    { unfold lazy_error, configured, kept, update_error in *. cbn [client s1].
      destruct (buttons env' "Update Settings"); [now rewrite Herr'|reflexivity]. }
    exists (request_of env' s1 p').
    destruct (requester_cases env' (request_of env' s1 p')) as [[r Hr]|[e' He]].
    + rewrite (interaction_submit_done env' s1 p' r Herr' Hsub' Hlazy Hr).
      cbn [trace]. now rewrite requests_submission.
    + rewrite (interaction_submit_raised env' s1 p' e' Herr' Hsub' Hlazy He).
      cbn [trace]. now rewrite requests_submission.
Qed.

Lemma requester_exceptions_are_caught_witness :
  res (interaction (stub (inl connection_error) (Some "Hello")) fresh) = Done tt
  /\ In (PlaceholderError "❌ Error: Connection error.")
        (trace (interaction (stub (inl connection_error) (Some "Hello")) fresh))
  /\ exists req,
       requests (trace (interaction (stub (inr hi_there) (Some "Again"))
                          (state (interaction (stub (inl connection_error) (Some "Hello"))
                                    fresh)))) = [req]
       /\ req_messages req = [user "Hello"; user "Again"].
Proof.
  destruct (requester_exceptions_are_caught
              (stub (inl connection_error) (Some "Hello")) fresh "Hello" connection_error)
    as (_ & Hres & Hshown & _ & Hnext).
  - repeat split; discriminate.
  - concrete_request.
  - split; [exact Hres|]. split; [exact Hshown|].
    destruct (Hnext (stub (inr hi_there) (Some "Again")) "Again") as (Hhistory & Hsent).
    + repeat split; discriminate.
    + destruct (Hsent eq_refl) as (req & Hreq). exists req. split; [exact Hreq|].
      apply Hhistory. rewrite Hreq. now left.
Defined.

(** ** The client handle *)

Lemma handle_kept (env : Run) (s : SessionState) (c : OpenAI) :
  buttons env "Update Settings" = false -> client s = Some (Some c) ->
  update_error env = None /\ configured env s = Some c.
Proof.
  intros Hupd Hc. unfold update_error, configured, kept. rewrite Hupd, Hc. now split.
Qed.

Lemma handle_updated (env : Run) (s : SessionState) :
  buttons env "Update Settings" = true -> rejected env = None ->
  update_error env = None /\ configured env s = Some (built env).
Proof.
  intros Hupd Hrej. unfold update_error, configured. rewrite Hupd, Hrej. now split.
Qed.

Lemma client_after (env : Run) (s : SessionState) (c : OpenAI) :
  update_error env = None -> configured env s = Some c ->
  client (state (main env s)) = Some (Some c)
  /\ client (state (interaction env s)) = Some (Some c)
  /\ forall req, In req (requests (trace (interaction env s))) -> req_client req = c.
Proof.
  intros Herr Hconf.
  assert (Hhandle : handle env s = c) by (unfold handle; now rewrite Hconf).
  assert (Hlazy : lazy_error env s = None) by (unfold lazy_error; now rewrite Hconf).
  split; [|split].
  - run_by_cases env s; cbn [client]; congruence.
  - run_by_cases env s; cbn [client]; congruence.
  - intros req Hin. destruct (interaction_requests env s req Hin) as (p & _ & ->).
    exact Hhandle.
Qed.

Lemma session_keeps_client (later : list Run) :
  forall (s : SessionState) (c : OpenAI),
    client s = Some (Some c) ->
    (forall env', In env' later -> buttons env' "Update Settings" = false) ->
    client (session later s) = Some (Some c)
    /\ forall req, In req (requests (session_trace later s)) -> req_client req = c.
Proof.
  induction later as [|env later IH]; intros s c Hc Hlater; [split; [exact Hc|intros req []]|].
  assert (Hupd : buttons env "Update Settings" = false) by (apply Hlater; now left).
  destruct (handle_kept env s c Hupd Hc) as [Herr Hconf].
  destruct (client_after env s c Herr Hconf) as (_ & Hclient & Hreqs).
  destruct (IH (state (interaction env s)) c Hclient) as [IHclient IHreqs].
  { intros env' Hin'. apply Hlater. now right. }
  split; [exact IHclient|].
  intros req Hin. cbn [session_trace] in Hin. unfold requests in Hin.
  rewrite collect_app in Hin. fold requests in Hin.
  apply in_app_or in Hin. destruct Hin as [Hin|Hin]; [now apply Hreqs|now apply IHreqs].
Qed.

(** C5, as amended: a click on Update Settings, whatever the state,
    stores the handle built from the URL and key entered in that run when
    the constructor takes them; every completion request from then on,
    until the button is clicked again, is sent with that handle.  When the
    constructor raises on them the run ends with its exception and the
    client attribute stays what it was. *)
Theorem update_settings_replaces_client (env : Run) (s : SessionState)
    (later : list Run) :
  buttons env "Update Settings" = true ->
  (forall env', In env' later -> buttons env' "Update Settings" = false) ->
  (rejected env = None ->
   client (state (main env s)) = Some (Some (built env))
   /\ client (state (interaction env s)) = Some (Some (built env))
   /\ client (session (env :: later) s) = Some (Some (built env))
   /\ forall req, In req (requests (session_trace (env :: later) s)) ->
                  req_client req = built env)
  /\ (forall e, rejected env = Some e ->
        res (main env s) = Raised e
        /\ res (interaction env s) = Raised e
        /\ client (state (interaction env s)) = Some (kept s)).
Proof.
  intros Hupd Hlater. split.
  - intros Hrej. destruct (handle_updated env s Hupd Hrej) as [Herr Hconf].
    destruct (client_after env s (built env) Herr Hconf) as (Hmain & Hclient & Hreqs).
    destruct (session_keeps_client later (state (interaction env s)) (built env)
                Hclient Hlater) as [Hkept Hlater_reqs].
    split; [exact Hmain|]. split; [exact Hclient|]. split; [exact Hkept|].
    intros req Hin. cbn [session_trace] in Hin. unfold requests in Hin.
    rewrite collect_app in Hin. fold requests in Hin.
    apply in_app_or in Hin. destruct Hin as [Hin|Hin]; [now apply Hreqs|].
    now apply Hlater_reqs.
  - intros e Hrej.
    assert (Herr : update_error env = Some e) by (unfold update_error; now rewrite Hupd).
    rewrite (main_update_aborts env s e Herr), (interaction_update_aborts env s e Herr).
    repeat split.
Qed.

Lemma update_settings_replaces_client_witness :
  client (state (interaction new_settings old_handle))
  = Some (Some {| base_url := "http://new:2/v1"; api_key := "new" |})
  /\ forall req,
       In req (requests (session_trace
                 [new_settings; stub (inr hi_there) (Some "Hello")] old_handle)) ->
       req_client req = {| base_url := "http://new:2/v1"; api_key := "new" |}.
Proof.
  destruct (update_settings_replaces_client new_settings old_handle
              [stub (inr hi_there) (Some "Hello")] eq_refl) as (Hbuilt & _).
  - intros env' [<-|[]]. reflexivity.
  - destruct (Hbuilt eq_refl) as (_ & H1 & _ & H2). split; [exact H1|exact H2].
Defined.

(** C5, as the claim states it, fails when the constructor raises: with
    the port of the URL mistyped, a click on Update Settings ends the run
    with the constructor's exception, the prior handle stays, and the next
    submission is sent with it. *)
Lemma update_settings_mistyped_url_keeps_old_handle :
  buttons mistyped_url "Update Settings" = true
  /\ llm_url_of mistyped_url = "http://localhost:abc/v1"
  /\ res (interaction mistyped_url old_handle) = Raised invalid_url
  /\ client (state (interaction mistyped_url old_handle))
     = Some (Some {| base_url := "http://old:1/v1"; api_key := "old" |})
  /\ map req_client
         (requests (session_trace [mistyped_url; stub (inr hi_there) (Some "Hello")]
                      old_handle))
     = [ {| base_url := "http://old:1/v1"; api_key := "old" |} ].
Proof. repeat split. Qed.

(** ** The temperature *)

Lemma confine_within (min_value max_value v : float) :
  PrimFloat.leb min_value min_value = true ->
  PrimFloat.leb max_value max_value = true ->
  PrimFloat.leb min_value max_value = true ->
  within min_value max_value (confine min_value max_value v).
Proof.
  intros Hmin Hmax Hrange. unfold within, confine.
  destruct (PrimFloat.leb min_value v) eqn:Hlow; [|now split].
  destruct (PrimFloat.leb v max_value) eqn:Hhigh; now split.
Qed.

(** C6: every completion request of a run carries the value the
    temperature slider returns in that run, as it is; the slider is called
    with the bounds 0.0 and 2.0 and confines the value to them, so the
    temperature passed lies between 0.0 and 2.0. *)
Theorem temperature_is_slider_value (env : Run) (s : SessionState) (req : Request) :
  In req (requests (trace (interaction env s))) ->
  (forall s', res (slider "Temperature" 0.0 2.0 0.7 0.1 env s') = Done (req_temperature req))
  /\ req_temperature req = temperature_of env
  /\ within 0.0 2.0 (req_temperature req).
Proof.
  intros Hin. destruct (interaction_requests env s req Hin) as (p & _ & ->).
  cbn [request_of req_temperature]. split; [reflexivity|]. split; [reflexivity|].
  unfold temperature_of. apply confine_within; reflexivity.
Qed.

Lemma temperature_is_slider_value_witness :
  req_temperature (request_of warm_submission fresh "Hello") = 1.5%float
  /\ within 0.0 2.0 (req_temperature (request_of warm_submission fresh "Hello")).
Proof.
  destruct (temperature_is_slider_value warm_submission fresh
              (request_of warm_submission fresh "Hello")) as (_ & Hvalue & Hrange).
  - left. reflexivity.
  - split; [rewrite Hvalue; reflexivity|exact Hrange].
Defined.

(** C7: when the endpoint answers a request with a response that has at
    least one choice, the requester returns the content of the first
    choice's message, with exactly one call to the endpoint, carrying the
    handle, model, messages and temperature it was given, and the session
    state untouched.  This holds for every message sequence, the non-empty
    ones included. *)
Theorem get_llm_response_first_choice (c : OpenAI) (model : string)
    (ms : list Message) (t : float) (env : Run) (s : SessionState)
    (first : Choice) (rest : list Choice) :
  let req := {| req_client := c; req_model := model; req_messages := ms;
                req_temperature := t |} in
  endpoint env req = inr {| choices := first :: rest |} ->
  get_llm_response (Some c) model ms t env s
  = {| res := Done (msg_content (message first)); state := s; trace := [Create req] |}
  /\ requests (trace (get_llm_response (Some c) model ms t env s)) = [req].
Proof.
  intros req Hresponse.
  assert (Hrun : get_llm_response (Some c) model ms t env s
                 = {| res := Done (msg_content (message first)); state := s;
                      trace := [Create req] |}).
  { unfold get_llm_response, bind, chat_completions_create. fold req.
    rewrite Hresponse. reflexivity. }
  split; [exact Hrun|]. rewrite Hrun. reflexivity.
Qed.

Lemma get_llm_response_first_choice_witness :
  get_llm_response (Some {| base_url := "http://localhost:11434/v1"; api_key := "dummy" |})
    "llama2" [user "Hello"] 0.7%float (stub (inr hi_there) (Some "Hello")) fresh
  = {| res := Done "Hi there"; state := fresh;
       trace := [Create {| req_client := {| base_url := "http://localhost:11434/v1";
                                            api_key := "dummy" |};
                           req_model := "llama2";
                           req_messages := [user "Hello"];
                           req_temperature := 0.7%float |}] |}.
Proof.
  apply (get_llm_response_first_choice
           {| base_url := "http://localhost:11434/v1"; api_key := "dummy" |}
           "llama2" [user "Hello"] 0.7%float (stub (inr hi_there) (Some "Hello")) fresh
           {| message := {| msg_content := "Hi there" |} |} []).
  reflexivity.
Defined.

(** ** The store only grows at its end, or is emptied *)

Lemma interaction_store (env : Run) (s : SessionState) :
  store (state (interaction env s)) = []
  \/ store (state (interaction env s)) = store s
  \/ (exists p, store (state (interaction env s)) = store s ++ [user p])
  \/ (exists p r, store (state (interaction env s)) = store s ++ [user p; assistant r]).
Proof.
  run_by_cases env s; rewrite store_set; eauto 6.
Qed.

Lemma main_store (env : Run) (s : SessionState) :
  store (state (main env s)) = []
  \/ store (state (main env s)) = store s
  \/ (exists p, store (state (main env s)) = store s ++ [user p])
  \/ (exists p r, store (state (main env s)) = store s ++ [user p; assistant r]).
Proof.
  run_by_cases env s; rewrite store_set; eauto 6.
Qed.

Lemma roles_ok_grows (ms added : list Message) :
  roles_ok ms -> roles_ok added -> roles_ok (ms ++ added).
Proof. intros Hms Hadded. apply Forall_app. now split. Qed.

Lemma roles_ok_user (p : string) : roles_ok [user p].
Proof. repeat constructor. Qed.

Lemma roles_ok_exchange (p r : string) : roles_ok [user p; assistant r].
Proof. constructor; [now left|]. constructor; [now right|]. constructor. Qed.

Lemma grown_store_ok (before after : list Message) :
  roles_ok before ->
  (after = [] \/ after = before
   \/ (exists p, after = before ++ [user p])
   \/ (exists p r, after = before ++ [user p; assistant r])) ->
  roles_ok after /\ (after = [] \/ exists added, after = before ++ added).
Proof.
  intros Hok [->|[->|[[p ->]|(p & r & ->)]]].
  - split; [constructor|now left].
  - split; [exact Hok|]. right. exists []. now rewrite app_nil_r.
  - split; [apply roles_ok_grows; [exact Hok|apply roles_ok_user]|]. right. eauto.
  - split; [apply roles_ok_grows; [exact Hok|apply roles_ok_exchange]|]. right. eauto.
Qed.

(** C8: whatever a run does (a submission, Clear Chat, Update Settings, a
    mere re-render), if every stored message has role "user" or
    "assistant" before, so does every stored message after, and the store
    after is either empty or the store before with messages added at its
    end; this holds of the run alone, of the run with its rerun, and so of
    whole sessions. *)
Theorem store_roles_and_order_preserved (env : Run) (s : SessionState) :
  roles_ok (store s) ->
  (roles_ok (store (state (main env s)))
   /\ (store (state (main env s)) = []
       \/ exists added, store (state (main env s)) = store s ++ added))
  /\ (roles_ok (store (state (interaction env s)))
      /\ (store (state (interaction env s)) = []
          \/ exists added, store (state (interaction env s)) = store s ++ added))
  /\ forall runs, roles_ok (store (session runs s)).
Proof.
  intros Hok. split; [|split].
  - exact (grown_store_ok (store s) _ Hok (main_store env s)).
  - exact (grown_store_ok (store s) _ Hok (interaction_store env s)).
  - intros runs. revert s Hok. induction runs as [|env' runs IH]; intros s Hok; [exact Hok|].
    cbn [session]. apply IH.
    exact (proj1 (grown_store_ok (store s) _ Hok (interaction_store env' s))).
Qed.

Lemma store_roles_and_order_preserved_witness :
  roles_ok (store (state (interaction (stub (inr hi_there) (Some "Hello")) four_entries)))
  /\ (store (state (interaction (stub (inr hi_there) (Some "Hello")) four_entries)) = []
      \/ exists added,
           store (state (interaction (stub (inr hi_there) (Some "Hello")) four_entries))
           = store four_entries ++ added).
Proof.
  apply (store_roles_and_order_preserved (stub (inr hi_there) (Some "Hello")) four_entries).
  repeat constructor; (now left) || (now right).
Defined.

(** C9: [initialize_session_state] completes, showing nothing; run on its
    own result it changes nothing; an attribute that is set keeps its
    value, and one that is not is created, [messages] as the empty list and
    [client] as [None]. *)
Theorem initialize_session_state_idempotent (env : Run) (s : SessionState) :
  let r := initialize_session_state env s in
  res r = Done tt /\ trace r = []
  /\ initialize_session_state env (state r) = {| res := Done tt; state := state r; trace := [] |}
  /\ (forall ms, messages s = Some ms -> messages (state r) = Some ms)
  /\ (forall c, client s = Some c -> client (state r) = Some c)
  /\ (messages s = None -> messages (state r) = Some [])
  /\ (client s = None -> client (state r) = Some None).
Proof.
  destruct s as [[ms|] [c|]]; cbn; repeat split; intros; congruence.
Qed.

Lemma initialize_session_state_idempotent_witness :
  messages (state (initialize_session_state (stub (inr hi_there) None) four_entries))
  = Some [user "a"; assistant "b"; user "c"; assistant "d"]
  /\ messages (state (initialize_session_state (stub (inr hi_there) None) fresh)) = Some []
  /\ client (state (initialize_session_state (stub (inr hi_there) None) fresh)) = Some None.
Proof.
  destruct (initialize_session_state_idempotent (stub (inr hi_there) None) four_entries)
    as (_ & _ & _ & Hkept & _).
  destruct (initialize_session_state_idempotent (stub (inr hi_there) None) fresh)
    as (_ & _ & _ & _ & _ & Hmessages & Hclient).
  split; [apply Hkept; reflexivity|]. split; [apply Hmessages|apply Hclient]; reflexivity.
Defined.

(** C10: when nothing is submitted, or the empty string is, the run sends
    no request and ends in the state the sidebar left: the store as it was
    (emptied if the run came to a clicked Clear Chat) and the client as it
    was (replaced if Update Settings was clicked and its handle built).
    With no button clicked that is the initialised state, so a state that
    has both attributes is unchanged. *)
Theorem no_prompt_skips_submit (env : Run) (s : SessionState) :
  nothing_submitted env ->
  requests (trace (main env s)) = []
  /\ requests (trace (interaction env s)) = []
  /\ state (main env s)
     = {| messages := Some (match update_error env with
                            | None => if buttons env "Clear Chat" then [] else store s
                            | Some _ => store s
                            end);
          client := Some (configured env s) |}
  /\ (buttons env "Update Settings" = false -> buttons env "Clear Chat" = false ->
      state (main env s) = state (initialize_session_state env s)
      /\ forall ms c, s = {| messages := Some ms; client := Some c |} ->
                      state (main env s) = s).
Proof.
  intros Hnone.
  assert (Hstate : buttons env "Update Settings" = false ->
                   buttons env "Clear Chat" = false ->
                   {| messages := Some (store s); client := Some (configured env s) |}
                   = state (initialize_session_state env s)
                   /\ forall ms c, s = {| messages := Some ms; client := Some c |} ->
                        {| messages := Some (store s); client := Some (configured env s) |}
                        = s).
  { intros Hupd _. unfold configured, kept. rewrite Hupd. split.
    - destruct s as [[ms|] [c|]]; reflexivity.
    - intros ms c ->. reflexivity. }
  run_by_cases env s;
    rewrite ?requests_sidebar_head, ?requests_cleared, ?requests_page_shown,
      ?requests_sidebar_shown;
    try (exfalso; exact (submits_not_idle env _ Hsub Hnone)).
  - rewrite Herr. do 2 (split; [reflexivity|]). split.
    + unfold configured. unfold update_error in Herr.
      destruct (buttons env "Update Settings"); [|discriminate]. now rewrite Herr.
    + intros Hupd. unfold update_error in Herr. rewrite Hupd in Herr. discriminate.
  - rewrite Herr, Hclear. do 2 (split; [reflexivity|]). split; [reflexivity|discriminate].
  - rewrite Herr, Hclear. do 2 (split; [reflexivity|]). split; [reflexivity|].
    intros Hupd _. now apply Hstate.
Qed.

Lemma no_prompt_skips_submit_witness :
  requests (trace (main (stub (inr hi_there) (Some "")) four_entries)) = []
  /\ state (main (stub (inr hi_there) (Some "")) four_entries) = four_entries
  /\ state (main (stub (inr hi_there) None) four_entries) = four_entries.
Proof.
  destruct (no_prompt_skips_submit (stub (inr hi_there) (Some "")) four_entries)
    as (Hnone & _ & _ & Hsame); [now right|].
  destruct (no_prompt_skips_submit (stub (inr hi_there) None) four_entries)
    as (_ & _ & _ & Hsame'); [now left|].
  split; [exact Hnone|]. split.
  - apply (proj2 (Hsame eq_refl eq_refl) _ _ eq_refl).
  - apply (proj2 (Hsame' eq_refl eq_refl) _ _ eq_refl).
Defined.

(** * Further properties of the script *)

(** ** Rendering *)

(** X1: [display_chat_messages] opens one chat container per stored
    message, named by its role, and renders the content of that message in
    it before it opens the next, in the order of the store; it sends
    nothing and leaves the session state as it is.  When the [messages]
    attribute is not set it raises [AttributeError] before showing
    anything. *)
Theorem display_chat_messages_renders_store (env : Run) (ms : list Message)
    (c c' : option (option OpenAI)) :
  let s := {| messages := Some ms; client := c |} in
  let unset := {| messages := None; client := c' |} in
  display_chat_messages env s
  = {| res := Done tt; state := s;
       trace := flat_map (fun m => [ChatMessage (role m); Markdown (content m)]) ms |}
  /\ (exists e, res (display_chat_messages env unset) = Raised e
                /\ exc_class e = "AttributeError")
  /\ state (display_chat_messages env unset) = unset
  /\ trace (display_chat_messages env unset) = [].
Proof.
  intros s unset. subst s. rewrite display_chat_messages_shows.
  split; [reflexivity|]. split; [eexists; split; reflexivity|split; reflexivity].
Qed.

Lemma chat_events_shown (ms : list Message) : chat_events (shown ms) = shown ms.
Proof.
  induction ms as [|m ms IH]; [reflexivity|].
  unfold chat_events, shown in *. cbn [flat_map app collect]. now rewrite IH.
Qed.

Lemma chat_events_sidebar_shown (env : Run) : chat_events (sidebar_shown env) = [].
Proof.
  unfold chat_events, sidebar_shown, sidebar_head.
  destruct (buttons env "Update Settings"); reflexivity.
Qed.

Lemma chat_events_page_shown (env : Run) (s : SessionState) :
  chat_events (page_shown env s) = shown (store s).
Proof.
  unfold chat_events, page_shown. rewrite !collect_app. fold chat_events.
  rewrite chat_events_sidebar_shown, chat_events_shown. cbn. now rewrite app_nil_r.
Qed.

(** X2: what a run renders of the conversation, container by container.
    With nothing submitted and Clear Chat not clicked, each stored message
    in order, its content in a container named by its role.  After a
    click on Clear Chat, nothing, before and after the rerun.  On a
    submission, the stored messages and then, if the run has or builds a
    handle, the new text in a "user" container followed by an "assistant"
    container; if the constructor raises, the stored messages only.  When
    the run ends at the constructor in the sidebar, nothing. *)
Theorem page_renders_conversation (env : Run) (s : SessionState) :
  (update_error env = None -> buttons env "Clear Chat" = false -> nothing_submitted env ->
   chat_events (trace (interaction env s)) = shown (store s))
  /\ (update_error env = None -> buttons env "Clear Chat" = true ->
      chat_events (trace (interaction env s)) = [])
  /\ (forall p, update_error env = None -> submits env p ->
        chat_events (trace (interaction env s))
        = shown (store s)
          ++ match lazy_error env s with
             | None => [ChatMessage "user"; Markdown p; ChatMessage "assistant"]
             | Some _ => []
             end)
  /\ (forall e, update_error env = Some e ->
        chat_events (trace (interaction env s)) = []).
Proof.
  split; [|split; [|split]].
  - intros Herr Hclear Hnone. rewrite (interaction_idle env s Herr Hclear Hnone).
    apply chat_events_page_shown.
  - intros Herr Hclear. rewrite (interaction_clear env s Herr Hclear). cbn [trace].
    unfold chat_events. rewrite collect_app. fold chat_events.
    now rewrite chat_events_sidebar_shown, chat_events_page_shown.
  - intros p Herr Hsub. destruct (lazy_error env s) as [e|] eqn:Hlazy.
    + rewrite (interaction_lazy_aborts env s p e Herr Hsub Hlazy). cbn [trace].
      rewrite chat_events_page_shown. now rewrite app_nil_r.
    + destruct (requester_cases env (request_of env s p)) as [[r Hr]|[e He]].
      * rewrite (interaction_submit_done env s p r Herr Hsub Hlazy Hr). cbn [trace].
        unfold chat_events. rewrite collect_app. fold chat_events.
        now rewrite chat_events_page_shown.
      * rewrite (interaction_submit_raised env s p e Herr Hsub Hlazy He). cbn [trace].
        unfold chat_events. rewrite collect_app. fold chat_events.
        now rewrite chat_events_page_shown.
  - intros e Herr. now rewrite (interaction_update_aborts env s e Herr).
Qed.

Lemma page_renders_conversation_witness :
  chat_events (trace (interaction (stub (inr hi_there) None) four_entries))
  = shown (store four_entries)
  /\ chat_events (trace (interaction (click "Clear Chat" (stub (inr hi_there) None))
                           four_entries)) = []
  /\ chat_events (trace (interaction (stub (inr hi_there) (Some "Hello")) four_entries))
     = shown (store four_entries)
       ++ [ChatMessage "user"; Markdown "Hello"; ChatMessage "assistant"]
  /\ chat_events (trace (interaction mistyped_url four_entries)) = [].
Proof.
  destruct (page_renders_conversation (stub (inr hi_there) None) four_entries)
    as (Hidle & _ & _ & _).
  destruct (page_renders_conversation (click "Clear Chat" (stub (inr hi_there) None))
              four_entries) as (_ & Hclear & _ & _).
  destruct (page_renders_conversation (stub (inr hi_there) (Some "Hello")) four_entries)
    as (_ & _ & Hsub & _).
  destruct (page_renders_conversation mistyped_url four_entries) as (_ & _ & _ & Habort).
  split; [exact (Hidle eq_refl eq_refl (or_introl eq_refl))|].
  split; [exact (Hclear eq_refl eq_refl)|].
  split; [|exact (Habort invalid_url eq_refl)].
  apply (Hsub "Hello" eq_refl). repeat split; discriminate.
Defined.

(** ** The requester's failures *)

(** X3: when the endpoint raises, [get_llm_response] raises that very
    exception, unwrapped, after the one request: there is no retry, and
    the session state is not touched. *)
Theorem get_llm_response_propagates_failure (c : OpenAI) (model : string)
    (ms : list Message) (t : float) (env : Run) (s : SessionState) (e : Exception) :
  let req := {| req_client := c; req_model := model; req_messages := ms;
                req_temperature := t |} in
  endpoint env req = inl e ->
  get_llm_response (Some c) model ms t env s
  = {| res := Raised e; state := s; trace := [Create req] |}.
Proof.
  intros req Hraise. unfold get_llm_response, bind, chat_completions_create.
  fold req. rewrite Hraise. reflexivity.
Qed.

Lemma get_llm_response_propagates_failure_witness :
  get_llm_response (Some {| base_url := "http://localhost:11434/v1"; api_key := "dummy" |})
    "llama2" [user "Hello"] 0.7%float (stub (inl connection_error) (Some "Hello")) fresh
  = {| res := Raised connection_error; state := fresh;
       trace := [Create {| req_client := {| base_url := "http://localhost:11434/v1";
                                            api_key := "dummy" |};
                           req_model := "llama2";
                           req_messages := [user "Hello"];
                           req_temperature := 0.7%float |}] |}.
Proof.
  apply (get_llm_response_propagates_failure
           {| base_url := "http://localhost:11434/v1"; api_key := "dummy" |}
           "llama2" [user "Hello"] 0.7%float (stub (inl connection_error) (Some "Hello"))
           fresh connection_error).
  reflexivity.
Defined.

(** X4: a response without any choice is treated like a failed request:
    when the submission has its handle and sends the request,
    [response.choices[0]] raises [IndexError], which the submission
    catches; the run completes, the placeholder shows the index error,
    no reply is rendered and only the user message is stored. *)
Theorem empty_choices_shown_as_error (env : Run) (s : SessionState) (p : string) :
  update_error env = None -> submits env p -> lazy_error env s = None ->
  endpoint env (request_of env s p) = inr {| choices := [] |} ->
  res (interaction env s) = Done tt
  /\ store (state (interaction env s)) = store s ++ [user p]
  /\ requests (trace (interaction env s)) = [request_of env s p]
  /\ errors_shown (trace (interaction env s)) = ["❌ Error: list index out of range"]
  /\ replies_shown (trace (interaction env s)) = [].
Proof.
  intros Herr Hsub Hlazy Hempty.
  assert (He : requester env (request_of env s p) = Raised IndexError).
  { unfold requester, get_llm_response, bind, chat_completions_create.
    destruct (request_of env s p) as [c model ms t] eqn:Hreq. cbn [req_client req_model
      req_messages req_temperature]. rewrite Hempty. reflexivity. }
  rewrite (interaction_submit_raised env s p IndexError Herr Hsub Hlazy He).
  cbn [res state trace]. rewrite store_set, requests_submission.
  do 3 (split; [reflexivity|]).
  unfold errors_shown, replies_shown. rewrite !collect_app.
  fold errors_shown replies_shown.
  rewrite errors_page_shown, replies_page_shown. split; reflexivity.
Qed.

Lemma empty_choices_shown_as_error_witness :
  res (interaction (stub (inr {| choices := [] |}) (Some "Hello")) fresh) = Done tt
  /\ store (state (interaction (stub (inr {| choices := [] |}) (Some "Hello")) fresh))
     = store fresh ++ [user "Hello"]
  /\ requests (trace (interaction (stub (inr {| choices := [] |}) (Some "Hello")) fresh))
     = [request_of (stub (inr {| choices := [] |}) (Some "Hello")) fresh "Hello"]
  /\ errors_shown (trace (interaction (stub (inr {| choices := [] |}) (Some "Hello")) fresh))
     = ["❌ Error: list index out of range"]
  /\ replies_shown (trace (interaction (stub (inr {| choices := [] |}) (Some "Hello")) fresh))
     = [].
Proof.
  apply (empty_choices_shown_as_error (stub (inr {| choices := [] |}) (Some "Hello"))
           fresh "Hello").
  - reflexivity.
  - repeat split; discriminate.
  - reflexivity.
  - reflexivity.
Defined.

(** ** The handle and the request *)

(** X5: a submission that finds no handle, with Update Settings not
    clicked, calls the constructor with the URL and key the fields hold in
    that run.  When the constructor takes them, the request is sent with
    the handle it gives and the handle is kept in the session.  When it
    raises, the run ends with its exception before anything is stored or
    sent: no request, the store as it was, no handle, and neither a reply
    nor an error in the placeholder. *)
Theorem first_submission_builds_client (env : Run) (s : SessionState) (p : string) :
  submits env p -> buttons env "Update Settings" = false -> no_handle s ->
  (rejected env = None ->
   (exists req, requests (trace (interaction env s)) = [req] /\ req_client req = built env)
   /\ client (state (interaction env s)) = Some (Some (built env)))
  /\ (forall e, rejected env = Some e ->
        res (interaction env s) = Raised e
        /\ requests (trace (interaction env s)) = []
        /\ store (state (interaction env s)) = store s
        /\ client (state (interaction env s)) = Some None
        /\ errors_shown (trace (interaction env s)) = []
        /\ replies_shown (trace (interaction env s)) = []).
Proof.
  intros Hsub Hupd Hnone.
  assert (Herr : update_error env = None) by (unfold update_error; now rewrite Hupd).
  assert (Hconf : configured env s = None).
  { unfold configured, kept. rewrite Hupd. destruct Hnone as [->| ->]; reflexivity. }
  assert (Hhandle : handle env s = built env) by (unfold handle; now rewrite Hconf).
  split.
  - intros Hrej.
    assert (Hlazy : lazy_error env s = None) by (unfold lazy_error; now rewrite Hconf).
    destruct (requester_cases env (request_of env s p)) as [[r Hr]|[e He]].
    + rewrite (interaction_submit_done env s p r Herr Hsub Hlazy Hr).
      cbn [state trace client]. rewrite requests_submission, Hhandle.
      split; [|reflexivity]. eexists. split; [reflexivity|exact Hhandle].
    + rewrite (interaction_submit_raised env s p e Herr Hsub Hlazy He).
      cbn [state trace client]. rewrite requests_submission, Hhandle.
      split; [|reflexivity]. eexists. split; [reflexivity|exact Hhandle].
  - intros e Hrej.
    assert (Hlazy : lazy_error env s = Some e) by (unfold lazy_error; now rewrite Hconf).
    rewrite (interaction_lazy_aborts env s p e Herr Hsub Hlazy).
    cbn [res state trace client]. rewrite store_set, Hconf.
    now rewrite requests_page_shown, errors_page_shown, replies_page_shown.
Qed.

Lemma first_submission_builds_client_witness :
  ((exists req, requests (trace (interaction other_fields fresh)) = [req]
                /\ req_client req = {| base_url := "http://new:2/v1"; api_key := "new" |})
   /\ client (state (interaction other_fields fresh))
      = Some (Some {| base_url := "http://new:2/v1"; api_key := "new" |}))
  /\ (res (interaction emptied_key fresh) = Raised missing_key
      /\ requests (trace (interaction emptied_key fresh)) = []
      /\ store (state (interaction emptied_key fresh)) = store fresh
      /\ client (state (interaction emptied_key fresh)) = Some None
      /\ errors_shown (trace (interaction emptied_key fresh)) = []
      /\ replies_shown (trace (interaction emptied_key fresh)) = []).
Proof.
  destruct (first_submission_builds_client other_fields fresh "Hello") as (Hbuilt & _);
    [repeat split; discriminate|reflexivity|left; reflexivity|].
  destruct (first_submission_builds_client emptied_key fresh "Hello") as (_ & Hraised);
    [repeat split; discriminate|reflexivity|left; reflexivity|].
  split; [exact (Hbuilt eq_refl)|exact (Hraised missing_key eq_refl)].
Defined.

(** X6: a handle in the session is kept as long as Update Settings is not
    clicked: whatever the URL and key fields hold in later runs, and
    whatever those runs do, the handle stays and every request is sent
    with it. *)
Theorem existing_client_is_kept (runs : list Run) (s : SessionState) (c : OpenAI) :
  client s = Some (Some c) ->
  (forall env, In env runs -> buttons env "Update Settings" = false) ->
  client (session runs s) = Some (Some c)
  /\ forall req, In req (requests (session_trace runs s)) -> req_client req = c.
Proof.
  intros Hc Hruns. exact (session_keeps_client runs s c Hc Hruns).
Qed.

Lemma existing_client_is_kept_witness :
  client (session [other_fields; click "Clear Chat" other_fields] old_handle)
  = Some (Some {| base_url := "http://old:1/v1"; api_key := "old" |})
  /\ forall req,
       In req (requests (session_trace [other_fields; click "Clear Chat" other_fields]
                           old_handle)) ->
       req_client req = {| base_url := "http://old:1/v1"; api_key := "old" |}.
Proof.
  apply (existing_client_is_kept [other_fields; click "Clear Chat" other_fields] old_handle).
  - reflexivity.
  - intros env [<-|[<-|[]]]; reflexivity.
Defined.

(** X7: unlike the URL and the key, the model name is read anew in each
    run: every request carries the name the Model Name field holds in the
    run that sends it, with no click on Update Settings needed. *)
Theorem model_name_read_each_run (env : Run) (s : SessionState) (req : Request) :
  In req (requests (trace (interaction env s))) ->
  req_model req = model_name_of env.
Proof.
  intros Hin. destruct (interaction_requests env s req Hin) as (p & _ & ->). reflexivity.
Qed.

Lemma model_name_read_each_run_witness :
  req_model (request_of other_fields old_handle "Hello") = "mistral"
  /\ req_client (request_of other_fields old_handle "Hello")
     = {| base_url := "http://old:1/v1"; api_key := "old" |}.
Proof.
  split; [|reflexivity].
  apply (model_name_read_each_run other_fields old_handle
           (request_of other_fields old_handle "Hello")).
  left. reflexivity.
Defined.

(** X8: every request carries the whole stored conversation followed by
    the text just submitted as a user message; so the requester is never
    called with an empty message list, and the last message it gets is the
    user's. *)
Theorem request_carries_history (env : Run) (s : SessionState) (req : Request) :
  In req (requests (trace (interaction env s))) ->
  exists p, submits env p
            /\ req_messages req = store s ++ [user p]
            /\ req_messages req <> []
            /\ last (req_messages req) (assistant "") = user p.
Proof.
  intros Hin. destruct (interaction_requests env s req Hin) as (p & Hsub & ->).
  exists p. cbn [request_of req_messages]. split; [exact Hsub|]. split; [reflexivity|].
  split.
  - intros H. apply app_eq_nil in H. destruct H as [_ H]. discriminate.
  - apply last_last.
Qed.

Lemma request_carries_history_witness :
  exists p, submits (stub (inr hi_there) (Some "Hello")) p
            /\ req_messages (request_of (stub (inr hi_there) (Some "Hello")) four_entries "Hello")
               = store four_entries ++ [user p]
            /\ req_messages (request_of (stub (inr hi_there) (Some "Hello")) four_entries "Hello")
               <> []
            /\ last (req_messages (request_of (stub (inr hi_there) (Some "Hello"))
                                     four_entries "Hello")) (assistant "") = user p.
Proof.
  apply (request_carries_history (stub (inr hi_there) (Some "Hello")) four_entries
           (request_of (stub (inr hi_there) (Some "Hello")) four_entries "Hello")).
  left. reflexivity.
Defined.

(** X9: an interaction sends at most one request, and sends one exactly
    when it is a submission that completes: none without a submission, and
    none when the run ends at the constructor.  A session sends at most as
    many requests as it has interactions. *)
Theorem at_most_one_request_per_interaction (env : Run) (s : SessionState)
    (runs : list Run) :
  List.length (requests (trace (interaction env s))) <= 1
  /\ (List.length (requests (trace (interaction env s))) = 1
      <-> (exists p, submits env p) /\ res (interaction env s) = Done tt)
  /\ List.length (requests (session_trace runs s)) <= List.length runs.
Proof.
  split; [apply interaction_request_count|]. split.
  - run_by_cases env s;
      rewrite ?requests_sidebar_head, ?requests_cleared, ?requests_page_shown,
        ?requests_submission;
      cbn [List.length requests collect];
      (split; [intros H|intros [[q Hq] H]]); try discriminate; eauto.
    + destruct Hq as [Hq _]. congruence.
    + exfalso. exact (submits_not_idle env q Hq Hnone).
  - revert s. induction runs as [|env' runs IH]; intros s; [cbn; lia|].
    cbn [session_trace List.length]. unfold requests. rewrite collect_app. fold requests.
    rewrite length_app. specialize (IH (state (interaction env' s))).
    pose proof (interaction_request_count env' s). lia.
Qed.

(** ** How a run ends *)

(** X10: how a run ends.  An interaction never ends asking for a rerun:
    it completes, or it ends with the exception of the constructor, raised
    outside the [try] block for the URL and key of the run; when the
    constructor takes them, every interaction completes.  A run of the
    script stops at [st.rerun()] exactly when it gets to a clicked Clear
    Chat. *)
Theorem interaction_ends_done_or_at_constructor (env : Run) (s : SessionState) :
  (res (interaction env s) = Done tt
   \/ exists e, rejected env = Some e /\ res (interaction env s) = Raised e)
  /\ (rejected env = None -> res (interaction env s) = Done tt)
  /\ (res (main env s) = RerunRequested
      <-> buttons env "Clear Chat" = true /\ update_error env = None).
Proof.
  assert (Haborts : forall e, update_error env = Some e -> rejected env = Some e).
  { intros e. unfold update_error.
    destruct (buttons env "Update Settings"); [tauto|discriminate]. }
  assert (Hlazy_aborts : forall e, lazy_error env s = Some e -> rejected env = Some e).
  { intros e. unfold lazy_error. destruct (configured env s); [discriminate|tauto]. }
  run_by_cases env s.
  - split; [right; exists e; split; [now apply Haborts|reflexivity]|].
    split; [intros Hrej; rewrite (Haborts e Herr) in Hrej; discriminate|].
    split; [discriminate|intros [_ H]; congruence].
  - split; [now left|]. split; [reflexivity|]. split; [now split|reflexivity].
  - split; [now left|]. split; [reflexivity|].
    split; [discriminate|intros [H _]; congruence].
  - split; [right; exists e; split; [now apply Hlazy_aborts|reflexivity]|].
    split; [intros Hrej; rewrite (Hlazy_aborts e Hlazy) in Hrej; discriminate|].
    split; [discriminate|intros [H _]; destruct Hsub; congruence].
  - split; [now left|]. split; [reflexivity|].
    split; [discriminate|intros [H _]; destruct Hsub; congruence].
  - split; [now left|]. split; [reflexivity|].
    split; [discriminate|intros [H _]; destruct Hsub; congruence].
Qed.

Lemma interaction_ends_done_or_at_constructor_witness :
  res (interaction other_fields old_handle) = Done tt
  /\ res (interaction emptied_key fresh) = Raised missing_key
  /\ res (interaction mistyped_url old_handle) = Raised invalid_url.
Proof.
  destruct (interaction_ends_done_or_at_constructor other_fields old_handle)
    as (_ & Hdone & _).
  split; [exact (Hdone eq_refl)|]. split; reflexivity.
Defined.

Lemma successes_page_shown (env : Run) (s : SessionState) :
  successes (page_shown env s) = successes (sidebar_shown env).
Proof.
  unfold successes, page_shown. rewrite !collect_app.
  rewrite collect_shown by reflexivity. cbn. now rewrite app_nil_r.
Qed.

Lemma successes_sidebar_shown (env : Run) :
  successes (sidebar_shown env)
  = if buttons env "Update Settings" then ["Settings updated!"] else [].
Proof.
  unfold successes, sidebar_shown, sidebar_head.
  destruct (buttons env "Update Settings"); reflexivity.
Qed.

(** X11: a click on Update Settings alone (nothing submitted, Clear Chat
    not clicked) causes no network traffic and does not touch the
    conversation, whether the constructor takes the fields or raises; the
    success notice is shown when it takes them and not when it raises. *)
Theorem update_settings_keeps_store (env : Run) (s : SessionState) :
  buttons env "Update Settings" = true -> buttons env "Clear Chat" = false ->
  nothing_submitted env ->
  store (state (interaction env s)) = store s
  /\ requests (trace (interaction env s)) = []
  /\ successes (trace (interaction env s))
     = match rejected env with
       | None => ["Settings updated!"]
       | Some _ => []
       end.
Proof.
  intros Hupd Hclear Hnone.
  destruct (rejected env) as [e|] eqn:Hrej.
  - assert (Herr : update_error env = Some e) by (unfold update_error; now rewrite Hupd).
    rewrite (interaction_update_aborts env s e Herr). repeat split.
  - assert (Herr : update_error env = None) by (unfold update_error; now rewrite Hupd).
    rewrite (interaction_idle env s Herr Hclear Hnone). cbn [state trace].
    split; [reflexivity|]. split; [apply requests_page_shown|].
    now rewrite successes_page_shown, successes_sidebar_shown, Hupd.
Qed.

Lemma update_settings_keeps_store_witness :
  (store (state (interaction new_settings four_entries)) = store four_entries
   /\ requests (trace (interaction new_settings four_entries)) = []
   /\ successes (trace (interaction new_settings four_entries)) = ["Settings updated!"])
  /\ (store (state (interaction mistyped_url four_entries)) = store four_entries
      /\ requests (trace (interaction mistyped_url four_entries)) = []
      /\ successes (trace (interaction mistyped_url four_entries)) = []).
Proof.
  split.
  - apply (update_settings_keeps_store new_settings four_entries);
      [reflexivity|reflexivity|left; reflexivity].
  - apply (update_settings_keeps_store mistyped_url four_entries);
      [reflexivity|reflexivity|left; reflexivity].
Defined.

(** X12: Clear Chat empties the conversation only: with Update Settings
    not clicked, the client attribute of an initialised session is after
    the interaction what it was before. *)
Theorem clear_chat_keeps_client (env : Run) (s : SessionState) (c : option OpenAI) :
  buttons env "Clear Chat" = true -> buttons env "Update Settings" = false ->
  client s = Some c ->
  client (state (interaction env s)) = Some c
  /\ client (state (main env s)) = Some c.
Proof.
  intros Hclear Hupd Hc.
  assert (Herr : update_error env = None) by (unfold update_error; now rewrite Hupd).
  rewrite (interaction_clear env s Herr Hclear), (main_clear env s Herr Hclear).
  cbn [state client]. unfold configured, kept. rewrite Hupd, Hc. now split.
Qed.

Lemma clear_chat_keeps_client_witness :
  client (state (interaction (click "Clear Chat" other_fields) old_handle))
  = Some (Some {| base_url := "http://old:1/v1"; api_key := "old" |})
  /\ client (state (main (click "Clear Chat" other_fields) old_handle))
     = Some (Some {| base_url := "http://old:1/v1"; api_key := "old" |}).
Proof.
  apply (clear_chat_keeps_client (click "Clear Chat" other_fields) old_handle);
    reflexivity.
Defined.

(** ** The shape of the conversation *)

Lemma paired_from_app (ms added : list Message) :
  forall after_user,
    paired_from after_user (ms ++ added)
    = paired_from after_user ms && paired_from (ends_with_user after_user ms) added.
Proof.
  induction ms as [|m ms IH]; intros after_user; [reflexivity|].
  cbn [app paired_from ends_with_user].
  destruct (String.eqb (role m) "user") eqn:Huser; [apply IH|].
  destruct (String.eqb (role m) "assistant"); [|reflexivity].
  rewrite IH. now rewrite andb_assoc.
Qed.

Lemma paired_from_grows (ms added : list Message) :
  replies_follow_prompts ms ->
  (forall after_user, paired_from after_user added = true) ->
  replies_follow_prompts (ms ++ added).
Proof.
  unfold replies_follow_prompts. intros Hms Hadded.
  now rewrite paired_from_app, Hms, Hadded.
Qed.

Lemma interaction_keeps_pairing (env : Run) (s : SessionState) :
  replies_follow_prompts (store s) ->
  replies_follow_prompts (store (state (interaction env s))).
Proof.
  intros Hok.
  destruct (interaction_store env s) as [->|[->|[[p ->]|(p & r & ->)]]].
  - reflexivity.
  - exact Hok.
  - apply paired_from_grows; [exact Hok|]. intros after_user. reflexivity.
  - apply paired_from_grows; [exact Hok|]. intros after_user. reflexivity.
Qed.

(** X13: the conversation keeps its shape: if every stored assistant
    message comes directly after a user message (so the store does not
    begin with an assistant message and holds no two in a row), then the
    same holds after any session, whatever succeeds, fails or is cleared.
    It holds in particular of every session that starts fresh. *)
Theorem replies_always_follow_prompts (runs : list Run) (s : SessionState) :
  replies_follow_prompts (store s) ->
  replies_follow_prompts (store (session runs s)).
Proof.
  revert s. induction runs as [|env runs IH]; intros s Hok; [exact Hok|].
  cbn [session]. apply IH. now apply interaction_keeps_pairing.
Qed.

Lemma replies_always_follow_prompts_witness :
  replies_follow_prompts
    (store (session [stub (inl connection_error) (Some "Hello");
                     stub (inr hi_there) (Some "Again");
                     click "Clear Chat" (stub (inr hi_there) None);
                     stub (inr hi_there) (Some "Once more")] fresh)).
Proof.
  apply (replies_always_follow_prompts
           [stub (inl connection_error) (Some "Hello");
            stub (inr hi_there) (Some "Again");
            click "Clear Chat" (stub (inr hi_there) None);
            stub (inr hi_there) (Some "Once more")] fresh).
  reflexivity.
Defined.

(** ** Runs without a submission *)

(** X14: a run in which nothing is submitted does all its work the first
    time: the same interaction repeated leaves the state the first one
    left, whichever buttons are clicked. *)
Theorem rerender_is_idempotent (env : Run) (s : SessionState) :
  nothing_submitted env ->
  state (interaction env (state (interaction env s))) = state (interaction env s).
Proof.
  intros Hnone.
  assert (Hconf : forall ms, configured env
                    {| messages := ms; client := Some (configured env s) |}
                  = configured env s).
  { intros ms. unfold configured, kept. cbn [client].
    destruct (buttons env "Update Settings"); [|reflexivity].
    destruct (rejected env); reflexivity. }
  destruct (update_error env) as [e|] eqn:Herr.
  - rewrite (interaction_update_aborts env s e Herr). cbn [state].
    now rewrite (interaction_update_aborts env _ e Herr).
  - destruct (buttons env "Clear Chat") eqn:Hclear.
    + rewrite (interaction_clear env s Herr Hclear). cbn [state].
      rewrite (interaction_clear env _ Herr Hclear). cbn [state]. now rewrite Hconf.
    + rewrite (interaction_idle env s Herr Hclear Hnone). cbn [state].
      rewrite (interaction_idle env _ Herr Hclear Hnone). cbn [state].
      now rewrite Hconf, store_set.
Qed.

Lemma rerender_is_idempotent_witness :
  state (interaction new_settings (state (interaction new_settings four_entries)))
  = state (interaction new_settings four_entries).
Proof.
  apply (rerender_is_idempotent new_settings four_entries). left. reflexivity.
Defined.

(** X15: with a sidebar nobody has touched and no handle in the session,
    a submission is sent to the local default endpoint with the placeholder
    key, model name and temperature of the script, and carries the stored
    conversation and the new user message. *)
Theorem untouched_sidebar_uses_defaults (env : Run) (s : SessionState) (p : string) :
  untouched env -> no_handle s -> submits env p ->
  requests (trace (interaction env s))
  = [ {| req_client := {| base_url := "http://localhost:11434/v1"; api_key := "dummy" |};
         req_model := "llama2";
         req_messages := store s ++ [user p];
         req_temperature := 0.7%float |} ].
Proof.
  intros (Hurl & Hmodel & Hkey & Htemp & Hupd) Hnone Hsub.
  assert (Herr : update_error env = None) by (unfold update_error; now rewrite Hupd).
  assert (Hconf : configured env s = None).
  { unfold configured, kept. rewrite Hupd. destruct Hnone as [->| ->]; reflexivity. }
  assert (Hlazy : lazy_error env s = None).
  { unfold lazy_error, rejected, llm_url_of, api_key_of. rewrite Hconf, Hurl, Hkey.
    apply default_accepted. }
  assert (Hreq : request_of env s p
                 = {| req_client := {| base_url := "http://localhost:11434/v1";
                                       api_key := "dummy" |};
                      req_model := "llama2";
                      req_messages := store s ++ [user p];
                      req_temperature := 0.7%float |}).
  { unfold request_of, handle, built, llm_url_of, model_name_of, api_key_of,
      temperature_of. rewrite Hconf, Hurl, Hmodel, Hkey, Htemp. reflexivity. }
  destruct (requester_cases env (request_of env s p)) as [[r Hr]|[e He]].
  - rewrite (interaction_submit_done env s p r Herr Hsub Hlazy Hr). cbn [trace].
    now rewrite requests_submission, Hreq.
  - rewrite (interaction_submit_raised env s p e Herr Hsub Hlazy He). cbn [trace].
    now rewrite requests_submission, Hreq.
Qed.

Lemma untouched_sidebar_uses_defaults_witness :
  requests (trace (interaction (stub (inr hi_there) (Some "Hello")) fresh))
  = [ {| req_client := {| base_url := "http://localhost:11434/v1"; api_key := "dummy" |};
         req_model := "llama2";
         req_messages := store fresh ++ [user "Hello"];
         req_temperature := 0.7%float |} ].
Proof.
  apply (untouched_sidebar_uses_defaults (stub (inr hi_there) (Some "Hello")) fresh "Hello").
  - repeat split.
  - left. reflexivity.
  - repeat split; discriminate.
Defined.

(** ** What every run leaves behind *)

(** X16: after any run of the script, cut short or not, both attributes
    are set.  After a submission that completes the client attribute holds
    a handle, and a handle, once there, is never replaced by [None]: later
    runs keep it or put another handle in its place. *)
Theorem session_stays_initialised (env : Run) (s : SessionState) :
  (exists ms c, state (main env s) = {| messages := Some ms; client := Some c |})
  /\ (exists ms c, state (interaction env s) = {| messages := Some ms; client := Some c |})
  /\ (forall p, submits env p -> res (interaction env s) = Done tt ->
        exists h, client (state (interaction env s)) = Some (Some h))
  /\ (forall h, client s = Some (Some h) ->
        exists h', client (state (interaction env s)) = Some (Some h')).
Proof.
  assert (Hkept : forall h, client s = Some (Some h) ->
                            exists h', configured env s = Some h').
  { intros h Hh. unfold configured, kept. rewrite Hh.
    destruct (buttons env "Update Settings"); [|eauto]. destruct (rejected env); eauto. }
  split; [|split; [|split]].
  - run_by_cases env s; do 2 eexists; reflexivity.
  - run_by_cases env s; do 2 eexists; reflexivity.
  - intros q Hq Hdone. run_by_cases env s; try discriminate; cbn [client]; eauto.
    + destruct Hq as [Hq _]. congruence.
    + exfalso. exact (submits_not_idle env q Hq Hnone).
  - intros h Hh. destruct (Hkept h Hh) as [h' Hh'].
    run_by_cases env s; cbn [client]; rewrite ?Hh'; eauto.
    unfold kept. rewrite Hh. eauto.
Qed.

Lemma session_stays_initialised_witness :
  (exists h, client (state (interaction other_fields fresh)) = Some (Some h))
  /\ (exists h', client (state (interaction (click "Clear Chat" other_fields) old_handle))
                 = Some (Some h')).
Proof.
  destruct (session_stays_initialised other_fields fresh) as (_ & _ & Hsub & _).
  destruct (session_stays_initialised (click "Clear Chat" other_fields) old_handle)
    as (_ & _ & _ & Hkept).
  split.
  - apply (Hsub "Hello"); [repeat split; discriminate|reflexivity].
  - apply (Hkept {| base_url := "http://old:1/v1"; api_key := "old" |}). reflexivity.
Defined.

(** X17: a submission that gets to the chat branch ends in one of three
    ways.  It shows a reply in the assistant's placeholder and stores the
    user message and an assistant message with the text shown; or it
    shows an error there and stores the user message only; or the
    constructor raises before anything is stored, sent or shown in the
    placeholder. *)
Theorem reply_stored_iff_shown (env : Run) (s : SessionState) (p : string) :
  update_error env = None -> submits env p ->
  (exists r, replies_shown (trace (interaction env s)) = [r]
             /\ errors_shown (trace (interaction env s)) = []
             /\ store (state (interaction env s)) = store s ++ [user p; assistant r])
  \/ (exists e, replies_shown (trace (interaction env s)) = []
                /\ errors_shown (trace (interaction env s))
                   = [("❌ Error: " ++ str e)%string]
                /\ store (state (interaction env s)) = store s ++ [user p])
  \/ (exists e, res (interaction env s) = Raised e
                /\ replies_shown (trace (interaction env s)) = []
                /\ errors_shown (trace (interaction env s)) = []
                /\ requests (trace (interaction env s)) = []
                /\ store (state (interaction env s)) = store s).
Proof.
  intros Herr Hsub. destruct (lazy_error env s) as [e|] eqn:Hlazy.
  - right. right. exists e. rewrite (interaction_lazy_aborts env s p e Herr Hsub Hlazy).
    cbn [res state trace].
    now rewrite replies_page_shown, errors_page_shown, requests_page_shown.
  - destruct (requester_cases env (request_of env s p)) as [[r Hr]|[e He]].
    + left. exists r. rewrite (interaction_submit_done env s p r Herr Hsub Hlazy Hr).
      cbn [state trace]. unfold replies_shown, errors_shown. rewrite !collect_app.
      fold replies_shown errors_shown. rewrite replies_page_shown, errors_page_shown.
      repeat split.
    + right. left. exists e.
      rewrite (interaction_submit_raised env s p e Herr Hsub Hlazy He).
      cbn [state trace]. unfold replies_shown, errors_shown. rewrite !collect_app.
      fold replies_shown errors_shown. rewrite replies_page_shown, errors_page_shown.
      repeat split.
Qed.

Lemma reply_stored_iff_shown_witness :
  (exists r, replies_shown (trace (interaction other_fields four_entries)) = [r]
             /\ errors_shown (trace (interaction other_fields four_entries)) = []
             /\ store (state (interaction other_fields four_entries))
                = store four_entries ++ [user "Hello"; assistant r])
  \/ (exists e, replies_shown (trace (interaction other_fields four_entries)) = []
                /\ errors_shown (trace (interaction other_fields four_entries))
                   = [("❌ Error: " ++ str e)%string]
                /\ store (state (interaction other_fields four_entries))
                   = store four_entries ++ [user "Hello"])
  \/ (exists e, res (interaction other_fields four_entries) = Raised e
                /\ replies_shown (trace (interaction other_fields four_entries)) = []
                /\ errors_shown (trace (interaction other_fields four_entries)) = []
                /\ requests (trace (interaction other_fields four_entries)) = []
                /\ store (state (interaction other_fields four_entries))
                   = store four_entries).
Proof.
  apply (reply_stored_iff_shown other_fields four_entries "Hello").
  - reflexivity.
  - repeat split; discriminate.
Defined.

(** X18: the notice "Settings updated!" is shown once in a run in which
    Update Settings is clicked and the constructor takes the fields, and
    in no other run: not when the constructor raises, and not when a
    submission builds its handle. *)
Theorem success_notice_only_on_update (env : Run) (s : SessionState) :
  successes (trace (main env s))
  = if buttons env "Update Settings"
    then match rejected env with
         | None => ["Settings updated!"]
         | Some _ => []
         end
    else [].
Proof.
  assert (Hpassed : update_error env = None ->
                    successes (sidebar_shown env)
                    = if buttons env "Update Settings"
                      then match rejected env with
                           | None => ["Settings updated!"]
                           | Some _ => []
                           end
                      else []).
  { intros Herr. rewrite successes_sidebar_shown. unfold update_error in Herr.
    destruct (buttons env "Update Settings"); [now rewrite Herr|reflexivity]. }
  run_by_cases env s;
    unfold successes; rewrite ?collect_app; fold successes;
    rewrite ?successes_page_shown, ?app_nil_r; auto.
  unfold update_error in Herr. destruct (buttons env "Update Settings"); [|discriminate].
  now rewrite Herr.
Qed.

(** ** The scenarios of the specification *)

Example scenario_hello_answered :
  state (interaction (stub (inr hi_there) (Some "Hello")) fresh)
  = {| messages := Some [user "Hello"; assistant "Hi there"];
       client := Some (Some {| base_url := "http://localhost:11434/v1";
                               api_key := "dummy" |}) |}.
Proof. reflexivity. Qed.

Example scenario_hello_connection_error :
  let r := interaction (stub (inl connection_error) (Some "Hello")) fresh in
  store (state r) = [user "Hello"]
  /\ In (PlaceholderError "❌ Error: Connection error.") (trace r)
  /\ replies_shown (trace r) = [].
Proof. cbn. repeat split. repeat (first [now left | right]). Qed.

Example scenario_clear_four_entries :
  let s1 := state (interaction (click "Clear Chat" (stub (inr hi_there) None)) four_entries) in
  store s1 = []
  /\ store (state (interaction (stub (inr hi_there) (Some "Hello")) s1))
     = [user "Hello"; assistant "Hi there"].
Proof. split; reflexivity. Qed.

Example scenario_empty_choices :
  let r := interaction (stub (inr {| choices := [] |}) (Some "Hello")) fresh in
  res r = Done tt
  /\ store (state r) = [user "Hello"]
  /\ In (PlaceholderError "❌ Error: list index out of range") (trace r).
Proof. cbn. repeat split. repeat (first [now left | right]). Qed.

Example scenario_emptied_key :
  let r := interaction emptied_key fresh in
  res r = Raised missing_key
  /\ state r = {| messages := Some []; client := Some None |}
  /\ requests (trace r) = [].
Proof. repeat split. Qed.
